(** * GestureControl: the web handler of app.py and the capture loop of
      hand_tracking.py

    Both programs are thin adapters around OpenCV and MediaPipe.  The
    library calls are kept abstract (a record of externals); what is
    embedded is the code of the repository itself: the subscript, split and
    index steps of the request decoding, the [try]/[except Exception]
    wrapper, the two nested loops that shape the detection result, and the
    [while cap.isOpened()] loop with its [continue] and [break]. *)

From Stdlib Require Import Floats Ascii.
From stdpp Require Import gmap strings list.

Set Warnings "-register-all,-inexact-float".

Local Open Scope Z_scope.

(** ** Python values

    [request.get_json()] yields a JSON document as a Python object, and
    [jsonify] takes one.  Python [int] is unbounded, [float] is binary64. *)

Inductive pyval : Type :=
  | PyNone
  | PyBool (b : bool)
  | PyInt (n : Z)
  | PyFloat (f : float)
  | PyStr (s : string)
  | PyList (l : list pyval)
  | PyDict (d : gmap string pyval).

(** [type(v).__name__] *)
Definition type_name (v : pyval) : string :=
  match v with
  | PyNone => "NoneType"
  | PyBool _ => "bool"
  | PyInt _ => "int"
  | PyFloat _ => "float"
  | PyStr _ => "str"
  | PyList _ => "list"
  | PyDict _ => "dict"
  end.

(** ** Exceptions

    An exception object, reduced to what the handler observes: whether
    [except Exception] matches it, and [str(e)].  [KeyboardInterrupt],
    [SystemExit] and [GeneratorExit] derive from [BaseException] only. *)

Record exc : Type := mk_exc {
  exc_class : string;
  exc_is_Exception : bool;
  exc_str : string
}.

(** [str(KeyError(k))] is [repr(k)]; for a key without quotes or escapes
    (the only key here is ['image']) that is the key between single quotes. *)
Definition KeyError (key : string) : exc :=
  mk_exc "KeyError" true ("'" +:+ key +:+ "'").
Definition TypeError (msg : string) : exc := mk_exc "TypeError" true msg.
Definition AttributeError (msg : string) : exc := mk_exc "AttributeError" true msg.
Definition IndexError (msg : string) : exc := mk_exc "IndexError" true msg.

Inductive outcome (A : Type) : Type :=
  | Ok (a : A)
  | Raise (e : exc).
Arguments Ok {A} a.
Arguments Raise {A} e.

(** ** Statements: state passing with exceptions

    [S] is whatever lives outside the interpreter and is mutated by library
    calls (the detector's tracking state, the camera, the window system). *)

Definition M (S A : Type) : Type := S -> outcome A * S.

Definition ret {S A} (a : A) : M S A := fun s => (Ok a, s).

Definition bind {S A B} (m : M S A) (k : A -> M S B) : M S B :=
  fun s =>
    match m s with
    | (Ok a, s') => k a s'
    | (Raise e, s') => (Raise e, s')
    end.

Definition lift {S A} (o : outcome A) : M S A := fun s => (o, s).

Notation "x <~ m ;; k" := (bind m (fun x => k))
  (at level 100, m at next level, right associativity).

(** [try: body / except Exception as e: handler e].  An exception that does
    not derive from [Exception] is not matched by the clause and keeps
    propagating. *)
Definition try_except_Exception {S A} (body : M S A) (handler : exc -> M S A)
    : M S A :=
  fun s =>
    match body s with
    | (Ok a, s') => (Ok a, s')
    | (Raise e, s') =>
        if exc_is_Exception e then handler e s' else (Raise e, s')
    end.

(** ** Built-in operations used by the handler *)

(** [v[key]] with a [str] key. *)
Definition getitem (v : pyval) (key : string) : outcome pyval :=
  match v with
  | PyDict d =>
      match d !! key with
      | Some x => Ok x
      | None => Raise (KeyError key)
      end
  | PyList _ =>
      Raise (TypeError "list indices must be integers or slices, not str")
  | PyStr _ =>
      Raise (TypeError "string indices must be integers, not 'str'")
  | _ =>
      Raise (TypeError ("'" +:+ type_name v +:+ "' object is not subscriptable"))
  end.

(** [s.split(sep)] for a one-character separator: every occurrence of the
    separator cuts; the result always has at least one piece. *)
Fixpoint split_on (sep : Ascii.ascii) (s : string) : list string :=
  match s with
  | EmptyString => [EmptyString]
  | String c s' =>
      if Ascii.eqb c sep then EmptyString :: split_on sep s'
      else
        match split_on sep s' with
        | p :: ps => String c p :: ps
        | [] => [String c EmptyString]
        end
  end.

(** [v.split(',')]: only [str] has the method among JSON values. *)
Definition split (v : pyval) (sep : Ascii.ascii) : outcome (list string) :=
  match v with
  | PyStr s => Ok (split_on sep s)
  | _ =>
      Raise (AttributeError
               ("'" +:+ type_name v +:+ "' object has no attribute 'split'"))
  end.

(** [l[i]] on a list, for [i >= 0]. *)
Definition list_getitem {A} (l : list A) (i : nat) : outcome A :=
  match l !! i with
  | Some x => Ok x
  | None => Raise (IndexError "list index out of range")
  end.

(** ** MediaPipe data *)

Record NormalizedLandmark : Type := {
  lm_x : float;
  lm_y : float;
  lm_z : float
}.

(** One hand: the repeated field [landmark]. *)
Record NormalizedLandmarkList : Type := {
  landmark : list NormalizedLandmark
}.

(** What [hands.process] returns; [multi_hand_landmarks] is [None] or a
    list of hands. *)
Record SolutionOutputs : Type := {
  multi_hand_landmarks : option (list NormalizedLandmarkList)
}.

(** Keyword arguments of [mp_hands.Hands(...)]. *)
Record HandsOptions : Type := {
  static_image_mode : bool;
  max_num_hands : Z;
  min_detection_confidence : float;
  min_tracking_confidence : float
}.

(** Truth value of [results.multi_hand_landmarks] in an [if]: [None] and the
    empty list are false. *)
Definition truthy (o : option (list NormalizedLandmarkList)) : bool :=
  match o with
  | None => false
  | Some [] => false
  | Some (_ :: _) => true
  end.

(** The hands of a detection result, none when the field is absent. *)
Definition hands_of (r : SolutionOutputs) : list NormalizedLandmarkList :=
  default [] (multi_hand_landmarks r).

(** ** app.py *)

Module App.

(** A Flask response: status code and JSON body. *)
Record response : Type := {
  status_code : Z;
  json : pyval
}.

(** [jsonify(d)] *)
Definition jsonify (d : gmap string pyval) : response :=
  {| status_code := 200; json := PyDict d |}.

(** A member of the response's JSON object. *)
Definition field (r : response) (k : string) : option pyval :=
  match json r with
  | PyDict d => d !! k
  | _ => None
  end.

(** app.py:13-18 *)
Definition hands_options : HandsOptions :=
  {| static_image_mode := false;
     max_num_hands := 2;
     min_detection_confidence := 0.7%float;
     min_tracking_confidence := 0.7%float |}.

(** app.py:52-56 *)
Definition landmark_record (lm : NormalizedLandmark) : pyval :=
  PyDict (<["x" := PyFloat (lm_x lm)]>
          (<["y" := PyFloat (lm_y lm)]>
           (<["z" := PyFloat (lm_z lm)]> ∅))).

(** app.py:50-56, the inner loop: [landmarks = []], then one [append] per
    landmark. *)
Definition hand_records (hand_landmarks : NormalizedLandmarkList) : list pyval :=
  foldl (fun landmarks lm => landmarks ++ [landmark_record lm])
        [] (landmark hand_landmarks).

(** app.py:47-57 *)
Definition landmarks_data (results : SolutionOutputs) : list pyval :=
  if truthy (multi_hand_landmarks results) then
    foldl (fun acc hand_landmarks => acc ++ [PyList (hand_records hand_landmarks)])
          [] (hands_of results)
  else [].

(** app.py:59-63 *)
Definition success_response (results : SolutionOutputs) : response :=
  let landmarks_data := landmarks_data results in
  jsonify (<["success" := PyBool true]>
           (<["landmarks" := PyList landmarks_data]>
            (<["hand_count" := PyInt (Z.of_nat (length landmarks_data))]> ∅))).

(** app.py:66-69 *)
Definition error_response (e : exc) : response :=
  jsonify (<["success" := PyBool false]>
           (<["error" := PyStr (exc_str e)]> ∅)).

Section Handler.

(** [request]: the incoming HTTP request.  [frame]: what [cv2.imdecode]
    returns, an array or [None].  [tracking]: the internal state of the
    process-wide [hands] object. *)
Context {request frame tracking : Type}.

(** The calls that leave the repository. *)
Record externals : Type := {
  get_json : request -> outcome pyval;
  b64decode : string -> outcome (list Byte.byte);
  imdecode : list Byte.byte -> outcome frame;
  cvtColor : frame -> outcome frame;
  process : HandsOptions -> frame -> M tracking SolutionOutputs
}.

Variable ext : externals.

(** [np.frombuffer(image_bytes, np.uint8)] is a view of the same bytes. *)
Definition frombuffer (image_bytes : list Byte.byte) : list Byte.byte :=
  image_bytes.

(** app.py:30-34: from the parsed body to the bytes given to
    [cv2.imdecode]. *)
Definition image_bytes_of (data : pyval) : outcome (list Byte.byte) :=
  match getitem data "image" with
  | Raise e => Raise e
  | Ok image_data =>
      match split image_data ","%char with
      | Raise e => Raise e
      | Ok pieces =>
          match list_getitem pieces 1 with
          | Raise e => Raise e
          | Ok image_data => b64decode ext image_data
          end
      end
  end.

(** app.py:29-44: up to and including the detector call. *)
Definition detect (req : request) : M tracking SolutionOutputs :=
  data <~ lift (get_json ext req) ;;
  image_bytes <~ lift (image_bytes_of data) ;;
  frame <~ lift (imdecode ext (frombuffer image_bytes)) ;;
  rgb_frame <~ lift (cvtColor ext frame) ;;
  process ext hands_options rgb_frame.

(** app.py:28-63, the body of the [try]. *)
Definition process_frame_try (req : request) : M tracking response :=
  results <~ detect req ;;
  ret (success_response results).

(** app.py:25-69 *)
Definition process_frame (req : request) : M tracking response :=
  try_except_Exception (process_frame_try req)
                       (fun e => ret (error_response e)).

(** Assumptions on the libraries, used where a claim names them. *)

(** The detector, constructed with the options [o], returns at most
    [max_num_hands] hands. *)
Definition honours_max_num_hands (o : HandsOptions) : Prop :=
  forall f s r s',
    process ext o f s = (Ok r, s') ->
    Z.of_nat (length (hands_of r)) <= max_num_hands o.

(** The detector returns 21 landmarks for each hand. *)
Definition gives_21_landmarks : Prop :=
  forall o f s r s',
    process ext o f s = (Ok r, s') ->
    forall h, h ∈ hands_of r -> length (landmark h) = 21%nat.

(** Every exception a library call raises has a non-empty [str]. *)
Definition library_texts_nonempty : Prop :=
  (forall req e, get_json ext req = Raise e -> exc_str e <> EmptyString)
  /\ (forall t e, b64decode ext t = Raise e -> exc_str e <> EmptyString)
  /\ (forall b e, imdecode ext b = Raise e -> exc_str e <> EmptyString)
  /\ (forall f e, cvtColor ext f = Raise e -> exc_str e <> EmptyString)
  /\ (forall o f s e s',
        process ext o f s = (Raise e, s') -> exc_str e <> EmptyString).

End Handler.

(** A JSON object with exactly the members [x], [y], [z], all numbers. *)
Definition xyz_record (v : pyval) : Prop :=
  exists x y z : float,
    v = PyDict (<["x" := PyFloat x]>
                (<["y" := PyFloat y]> (<["z" := PyFloat z]> ∅))).

End App.

(** ** hand_tracking.py *)

Module HandTracking.

(** hand_tracking.py:8-13 *)
Definition hands_options : HandsOptions :=
  {| static_image_mode := false;
     max_num_hands := 2;
     min_detection_confidence := 0.7%float;
     min_tracking_confidence := 0.7%float |}.

(** The program's observable history: each library call it makes, in
    order, with the returned value where control flow depends on it.
    [c_raised] records a call that ended in an exception. *)
Inductive call : Type :=
  | c_VideoCapture (index : Z)
  | c_isOpened (opened : bool)
  | c_read (success : bool)
  | c_print (text : string)
  | c_cvtColor
  | c_process
  | c_draw_landmarks
  | c_imshow (winname : string)
  | c_waitKey (delay : Z) (key : Z)
  | c_release
  | c_destroyAllWindows
  | c_raised (e : exc).

(** What a loop iteration asks for next: [Next] when it reaches its end or
    executes [continue], [Break] when it executes [break]. *)
Inductive flow : Type :=
  | Next
  | Break.

Section Program.

(** [frame]: what [cap.read()] returns as its second component, an array
    or [None].  [world]: the camera, the window system, the keyboard and
    the detector's tracking state. *)
Context {frame world : Type}.

(** The calls that leave the repository.  Opening, querying and reading
    the capture report failure through their return value, if at all; the
    others may raise, the two calls of lines 43-44 included
    ([destroyAllWindows] does on a build of OpenCV without window
    support). *)
Record externals : Type := {
  VideoCapture : Z -> world -> world;
  isOpened : world -> bool;
  read : world -> (bool * frame) * world;
  cvtColor : frame -> outcome frame;
  process : HandsOptions -> frame -> M world SolutionOutputs;
  draw_landmarks : frame -> NormalizedLandmarkList -> outcome frame;
  imshow : string -> frame -> M world unit;
  waitKey : Z -> M world Z;
  release : M world unit;
  destroyAllWindows : M world unit
}.

Variable ext : externals.

Record state : Type := {
  outside : world;
  history : list call
}.

Definition record (c : call) (st : state) : state :=
  {| outside := outside st; history := history st ++ [c] |}.

(** A library call, entered in the history. *)
Definition extern {A} (m : M world A) (c : A -> call) : M state A :=
  fun st =>
    match m (outside st) with
    | (Ok a, w) => (Ok a, {| outside := w; history := history st ++ [c a] |})
    | (Raise e, w) =>
        (Raise e, {| outside := w; history := history st ++ [c_raised e] |})
    end.

(** hand_tracking.py:32-34, the [for] loop: [draw_landmarks] draws on
    [frame] in place. *)
Fixpoint draw_hands (frame0 : frame) (hs : list NormalizedLandmarkList)
    : M state frame :=
  match hs with
  | [] => ret frame0
  | hand_landmarks :: hs' =>
      frame1 <~ extern (lift (draw_landmarks ext frame0 hand_landmarks))
                       (fun _ => c_draw_landmarks) ;;
      draw_hands frame1 hs'
  end.

(** hand_tracking.py:19-41, one iteration. *)
Definition loop_body : M state flow :=
  r <~ extern (fun w => let (r, w') := read ext w in (Ok r, w'))
              (fun r => c_read (fst r)) ;;
  let (success, frame0) := r : bool * frame in
  if negb success then
    _ <~ extern (ret tt) (fun _ => c_print "Ignoring empty camera frame.") ;;
    ret Next
  else
    rgb_frame <~ extern (lift (cvtColor ext frame0)) (fun _ => c_cvtColor) ;;
    results <~ extern (process ext hands_options rgb_frame)
                      (fun _ => c_process) ;;
    frame1 <~ (if truthy (multi_hand_landmarks results)
               then draw_hands frame0 (hands_of results)
               else ret frame0) ;;
    _ <~ extern (imshow ext "Hand Tracking" frame1)
                (fun _ => c_imshow "Hand Tracking") ;;
    key <~ extern (waitKey ext 1) (c_waitKey 1) ;;
    if Z.land key 255 =? 27 then ret Break else ret Next.

(** hand_tracking.py:18-41.  [None]: the loop is still running when the
    fuel is used up. *)
Fixpoint while_isOpened (fuel : nat) (st : state)
    : option (outcome unit * state) :=
  match fuel with
  | O => None
  | S fuel' =>
      let opened := isOpened ext (outside st) in
      let st1 := record (c_isOpened opened) st in
      if opened then
        match loop_body st1 with
        | (Ok Next, st2) => while_isOpened fuel' st2
        | (Ok Break, st2) => Some (Ok tt, st2)
        | (Raise e, st2) => Some (Raise e, st2)
        end
      else Some (Ok tt, st1)
  end.

(** hand_tracking.py:43-44 *)
Definition cleanup : M state unit :=
  _ <~ extern (release ext) (fun _ => c_release) ;;
  extern (destroyAllWindows ext) (fun _ => c_destroyAllWindows).

(** hand_tracking.py:16-44.  An exception raised in the loop is caught
    nowhere: the program ends there and lines 43-44 are not reached.  One
    raised by line 43 or 44 ends the program as well. *)
Definition main (fuel : nat) (w : world) : option (outcome unit * state) :=
  let st0 := {| outside := VideoCapture ext 0 w;
                history := [c_VideoCapture 0] |} in
  match while_isOpened fuel st0 with
  | None => None
  | Some (Raise e, st) => Some (Raise e, st)
  | Some (Ok _, st) => Some (cleanup st)
  end.

End Program.

End HandTracking.

(** ** The ingestion step as the specification words it

    "Strips any data-URL prefix ... and base64-decodes the remainder."  A
    data URL is [data:<media type>;base64,<payload>]: its prefix runs up to
    and including the first comma. *)

(** The text after the first comma, if there is a comma. *)
Fixpoint after_first_comma (s : string) : option string :=
  match s with
  | EmptyString => None
  | String c s' => if Ascii.eqb c "," then Some s' else after_first_comma s'
  end.

(** The text before the first comma, or all of it. *)
Fixpoint up_to_comma (s : string) : string :=
  match s with
  | EmptyString => EmptyString
  | String c s' => if Ascii.eqb c "," then EmptyString else String c (up_to_comma s')
  end.

Definition spec_strip_data_url_prefix (s : string) : string :=
  default s (after_first_comma s).

(** ** Test doubles for the library calls *)

Module Stub.

Import App.

Definition cv2_error : exc :=
  mk_exc "cv2.error" true
    "OpenCV: error: (-215:Assertion failed) !_src.empty() in function 'cvtColor'".

Definition binascii_Error : exc := mk_exc "binascii.Error" true "Incorrect padding".

(** [str(MemoryError())] is the empty string. *)
Definition MemoryError : exc := mk_exc "MemoryError" true EmptyString.

(** [KeyboardInterrupt] derives from [BaseException], not [Exception]. *)
Definition KeyboardInterrupt : exc := mk_exc "KeyboardInterrupt" false EmptyString.

Definition centre : NormalizedLandmark :=
  {| lm_x := 0.5%float; lm_y := 0.25%float; lm_z := 0%float |}.

Definition tip : NormalizedLandmark :=
  {| lm_x := 0.75%float; lm_y := 0.125%float; lm_z := (-0.5)%float |}.

(** A hand of 21 landmarks. *)
Definition one_hand : NormalizedLandmarkList :=
  {| landmark := tip :: replicate 20 centre |}.

(** Three known payloads, decoded as [base64.b64decode] decodes them (it
    skips the comma, which is outside the alphabet); everything else is
    rejected. *)
Definition table_b64decode (s : string) : outcome (list Byte.byte) :=
  if String.eqb s "aGk=" then Ok [Byte.x68; Byte.x69]
  else if String.eqb s "AAAA" then Ok [Byte.x00; Byte.x00; Byte.x00]
  else if String.eqb s "AAAA,aGk=" then
    Ok [Byte.x00; Byte.x00; Byte.x00; Byte.x68; Byte.x69]
  else Raise binascii_Error.

(** Frames are [Some bytes], or [None] for an empty buffer. *)
Definition some_imdecode (b : list Byte.byte) : outcome (option (list Byte.byte)) :=
  match b with
  | [] => Ok None
  | _ => Ok (Some b)
  end.

Definition some_cvtColor (f : option (list Byte.byte))
    : outcome (option (list Byte.byte)) :=
  match f with
  | None => Raise cv2_error
  | Some b => Ok (Some (rev b))
  end.

(** Sees one hand in any frame that starts with a non-zero byte, capped by
    [max_num_hands]; counts the frames it has processed. *)
Definition counting_process (o : HandsOptions) (f : option (list Byte.byte))
    : M nat SolutionOutputs :=
  fun n =>
    match f with
    | Some (b :: _) =>
        if Byte.eqb b Byte.x00 then
          (Ok {| multi_hand_landmarks := None |}, S n)
        else
          (Ok {| multi_hand_landmarks :=
                   Some (take (Z.to_nat (max_num_hands o)) [one_hand]) |}, S n)
    | _ => (Ok {| multi_hand_landmarks := None |}, S n)
    end.

(** The request is its parsed body. *)
Definition web : @externals pyval (option (list Byte.byte)) nat :=
  {| get_json := fun body => Ok body;
     b64decode := table_b64decode;
     imdecode := some_imdecode;
     cvtColor := some_cvtColor;
     process := counting_process |}.

(** As [web], with a decoder that runs out of memory. *)
Definition web_out_of_memory : @externals pyval (option (list Byte.byte)) nat :=
  {| get_json := fun body => Ok body;
     b64decode := fun _ => Raise MemoryError;
     imdecode := some_imdecode;
     cvtColor := some_cvtColor;
     process := counting_process |}.

(** As [web], with a detector call that is interrupted. *)
Definition web_interrupted : @externals pyval (option (list Byte.byte)) nat :=
  {| get_json := fun body => Ok body;
     b64decode := table_b64decode;
     imdecode := some_imdecode;
     cvtColor := some_cvtColor;
     process := fun _ _ n => (Raise KeyboardInterrupt, S n) |}.

Definition body_of (image : string) : pyval :=
  PyDict (<["image" := PyStr image]> ∅).

(** A scripted camera and keyboard: whether the device opened, the
    outcomes of the coming reads (a failed read once the script is used up),
    the coming key codes ([-1], no key, once used up). *)
Record sim : Type := {
  sim_opened : bool;
  sim_reads : list bool;
  sim_keys : list Z;
  sim_shown : nat
}.

Definition sim_read (w : sim) : (bool * option nat) * sim :=
  match sim_reads w with
  | [] => ((false, None), w)
  | b :: rest =>
      ((b, if b then Some (length rest) else None),
       {| sim_opened := sim_opened w; sim_reads := rest;
          sim_keys := sim_keys w; sim_shown := sim_shown w |})
  end.

Definition sim_waitKey (delay : Z) : M sim Z :=
  fun w =>
    match sim_keys w with
    | [] => (Ok (-1), w)
    | k :: rest =>
        (Ok k, {| sim_opened := sim_opened w; sim_reads := sim_reads w;
                  sim_keys := rest; sim_shown := sim_shown w |})
    end.

Definition sim_imshow (winname : string) (f : option nat) : M sim unit :=
  fun w =>
    (Ok tt, {| sim_opened := sim_opened w; sim_reads := sim_reads w;
               sim_keys := sim_keys w; sim_shown := S (sim_shown w) |}).

Definition live : @HandTracking.externals (option nat) sim :=
  {| HandTracking.VideoCapture := fun _ w => w;
     HandTracking.isOpened := sim_opened;
     HandTracking.read := sim_read;
     HandTracking.cvtColor :=
       fun f => match f with None => Raise cv2_error | Some n => Ok (Some n) end;
     HandTracking.process :=
       fun _ _ w => (Ok {| multi_hand_landmarks := None |}, w);
     HandTracking.draw_landmarks := fun f _ => Ok f;
     HandTracking.imshow := sim_imshow;
     HandTracking.waitKey := sim_waitKey;
     HandTracking.release :=
       fun w => (Ok tt,
                 {| sim_opened := false; sim_reads := sim_reads w;
                    sim_keys := sim_keys w; sim_shown := sim_shown w |});
     HandTracking.destroyAllWindows := fun w => (Ok tt, w) |}.

Definition start (w : sim) : @HandTracking.state sim :=
  {| HandTracking.outside := w; HandTracking.history := [] |}.

End Stub.

(** ** Notions used in further statements about the two programs *)

(** [sep.join(pieces)] *)
Fixpoint join_on (sep : Ascii.ascii) (pieces : list string) : string :=
  match pieces with
  | [] => EmptyString
  | p :: ps =>
      match ps with
      | [] => p
      | _ :: _ => p +:+ String sep (join_on sep ps)
      end
  end.

Section Drawing.

Context {frame world : Type}.
Variable ext : @HandTracking.externals frame world.

(** hand_tracking.py:32-34 without the history: the frame after
    [draw_landmarks] has drawn each hand on it in turn, or the first
    exception. *)
Fixpoint drawn (frame0 : frame) (hs : list NormalizedLandmarkList)
    : outcome frame :=
  match hs with
  | [] => Ok frame0
  | hand_landmarks :: hs' =>
      match HandTracking.draw_landmarks ext frame0 hand_landmarks with
      | Ok frame1 => drawn frame1 hs'
      | Raise e => Raise e
      end
  end.

End Drawing.

(** As [Stub.web], with a detector whose call fails after it has touched
    its state. *)
Definition failing_detector_web
    : @App.externals pyval (option (list Byte.byte)) nat :=
  {| App.get_json := App.get_json Stub.web;
     App.b64decode := App.b64decode Stub.web;
     App.imdecode := App.imdecode Stub.web;
     App.cvtColor := App.cvtColor Stub.web;
     App.process :=
       fun _ _ n => (Raise (mk_exc "RuntimeError" true "Graph has errors"), S n) |}.

(** As [Stub.web], with a base64 decoding that is interrupted. *)
Definition interrupted_decoding_web
    : @App.externals pyval (option (list Byte.byte)) nat :=
  {| App.get_json := App.get_json Stub.web;
     App.b64decode := fun _ => Raise Stub.KeyboardInterrupt;
     App.imdecode := App.imdecode Stub.web;
     App.cvtColor := App.cvtColor Stub.web;
     App.process := App.process Stub.web |}.

(** Two more test doubles for the capture loop. *)

(** As [Stub.live], on a build of OpenCV without window support: [imshow]
    and [destroyAllWindows] raise. *)
Definition headless_live : @HandTracking.externals (option nat) Stub.sim :=
  {| HandTracking.VideoCapture := HandTracking.VideoCapture Stub.live;
     HandTracking.isOpened := HandTracking.isOpened Stub.live;
     HandTracking.read := HandTracking.read Stub.live;
     HandTracking.cvtColor := HandTracking.cvtColor Stub.live;
     HandTracking.process := HandTracking.process Stub.live;
     HandTracking.draw_landmarks := HandTracking.draw_landmarks Stub.live;
     HandTracking.imshow :=
       fun _ _ w =>
         (Raise (mk_exc "cv2.error" true
                   "OpenCV: error: (-2:Unspecified error) The function is not implemented."),
          w);
     HandTracking.waitKey := HandTracking.waitKey Stub.live;
     HandTracking.release := HandTracking.release Stub.live;
     HandTracking.destroyAllWindows :=
       fun w =>
         (Raise (mk_exc "cv2.error" true
                   "OpenCV: error: (-2:Unspecified error) The function is not implemented."),
          w) |}.

(** As [Stub.live], with a detector that sees two hands in every frame and a
    drawing helper that marks the frame (adds 100 to its number). *)
Definition two_hands_live : @HandTracking.externals (option nat) Stub.sim :=
  {| HandTracking.VideoCapture := HandTracking.VideoCapture Stub.live;
     HandTracking.isOpened := HandTracking.isOpened Stub.live;
     HandTracking.read := HandTracking.read Stub.live;
     HandTracking.cvtColor := HandTracking.cvtColor Stub.live;
     HandTracking.process :=
       fun _ _ w =>
         (Ok {| multi_hand_landmarks := Some [Stub.one_hand; Stub.one_hand] |},
          w);
     HandTracking.draw_landmarks :=
       fun f _ => Ok (match f with
                      | Some k => Some (k + 100)%nat
                      | None => None
                      end);
     HandTracking.imshow := HandTracking.imshow Stub.live;
     HandTracking.waitKey := HandTracking.waitKey Stub.live;
     HandTracking.release := HandTracking.release Stub.live;
     HandTracking.destroyAllWindows :=
       HandTracking.destroyAllWindows Stub.live |}.

(** The library calls of one iteration of the capture loop
    (hand_tracking.py:19-41), by the way the iteration ends.  [n] counts the
    [draw_landmarks] calls that returned. *)
Inductive iteration_trace
    : outcome HandTracking.flow -> list HandTracking.call -> Prop :=
  | trace_skipped :
      iteration_trace (Ok HandTracking.Next)
        [HandTracking.c_read false;
         HandTracking.c_print "Ignoring empty camera frame."]
  | trace_cvtColor_raised e :
      iteration_trace (Raise e)
        [HandTracking.c_read true; HandTracking.c_raised e]
  | trace_process_raised e :
      iteration_trace (Raise e)
        [HandTracking.c_read true; HandTracking.c_cvtColor;
         HandTracking.c_raised e]
  | trace_draw_or_imshow_raised e n :
      iteration_trace (Raise e)
        ([HandTracking.c_read true; HandTracking.c_cvtColor;
          HandTracking.c_process]
         ++ replicate n HandTracking.c_draw_landmarks
         ++ [HandTracking.c_raised e])
  | trace_waitKey_raised e n :
      iteration_trace (Raise e)
        ([HandTracking.c_read true; HandTracking.c_cvtColor;
          HandTracking.c_process]
         ++ replicate n HandTracking.c_draw_landmarks
         ++ [HandTracking.c_imshow "Hand Tracking"; HandTracking.c_raised e])
  | trace_shown n key :
      iteration_trace
        (Ok (if Z.land key 255 =? 27 then HandTracking.Break
             else HandTracking.Next))
        ([HandTracking.c_read true; HandTracking.c_cvtColor;
          HandTracking.c_process]
         ++ replicate n HandTracking.c_draw_landmarks
         ++ [HandTracking.c_imshow "Hand Tracking";
             HandTracking.c_waitKey 1 key]).

(** * Properties of the web handler *)

Section AppendLoops.

Context {A B : Type} (f : A -> B).

(** A loop that appends one element per step builds the image of the
    sequence it iterates over, behind what was there before. *)
Lemma foldl_append_fmap (xs : list A) (acc : list B) :
  foldl (fun acc x => acc ++ [f x]) acc xs = acc ++ (f <$> xs).
Proof.
  revert acc. induction xs as [|x xs IH]; intros acc; simpl.
  - by rewrite app_nil_r.
  - rewrite IH. by rewrite <- app_assoc.
Qed.

End AppendLoops.

Lemma hand_records_fmap (h : NormalizedLandmarkList) :
  App.hand_records h = App.landmark_record <$> landmark h.
Proof. unfold App.hand_records. by rewrite foldl_append_fmap. Qed.

Lemma truthy_false_no_hands (r : SolutionOutputs) :
  truthy (multi_hand_landmarks r) = false -> hands_of r = [].
Proof.
  unfold hands_of. destruct (multi_hand_landmarks r) as [[|h hs]|]; simpl;
    intros H; [reflexivity | discriminate | reflexivity].
Qed.

Lemma landmarks_data_fmap (r : SolutionOutputs) :
  App.landmarks_data r = (fun h => PyList (App.hand_records h)) <$> hands_of r.
Proof.
  unfold App.landmarks_data.
  destruct (truthy (multi_hand_landmarks r)) eqn:Ht.
  - by rewrite foldl_append_fmap.
  - by rewrite (truthy_false_no_hands r Ht).
Qed.

Lemma length_landmarks_data (r : SolutionOutputs) :
  length (App.landmarks_data r) = length (hands_of r).
Proof. rewrite landmarks_data_fmap. apply length_fmap. Qed.

(** The members of the two response bodies. *)

Lemma field_success_ok (r : SolutionOutputs) :
  App.field (App.success_response r) "success" = Some (PyBool true).
Proof. unfold App.field; simpl. by rewrite lookup_insert_eq. Qed.

Lemma field_landmarks_ok (r : SolutionOutputs) :
  App.field (App.success_response r) "landmarks"
  = Some (PyList (App.landmarks_data r)).
Proof.
  unfold App.field; simpl.
  rewrite lookup_insert_ne by done. by rewrite lookup_insert_eq.
Qed.

Lemma field_hand_count_ok (r : SolutionOutputs) :
  App.field (App.success_response r) "hand_count"
  = Some (PyInt (Z.of_nat (length (App.landmarks_data r)))).
Proof.
  unfold App.field; simpl.
  rewrite !lookup_insert_ne by done. by rewrite lookup_insert_eq.
Qed.

Lemma field_success_error (e : exc) :
  App.field (App.error_response e) "success" = Some (PyBool false).
Proof. unfold App.field; simpl. by rewrite lookup_insert_eq. Qed.

Lemma field_error_others (e : exc) (k : string) :
  k <> "success" -> k <> "error" -> App.field (App.error_response e) k = None.
Proof.
  intros H1 H2. unfold App.field; simpl.
  rewrite !lookup_insert_ne by done. apply lookup_empty.
Qed.

Section HandlerFacts.

Context {request frame tracking : Type}.
Variable ext : @App.externals request frame tracking.

(** The [try] body raises exactly when a step up to the detector call
    raises: shaping and [jsonify] do not. *)
Lemma process_frame_try_inv (req : request) (s s' : tracking)
    (o : outcome App.response) :
  App.process_frame_try ext req s = (o, s') ->
  (exists r, App.detect ext req s = (Ok r, s') /\ o = Ok (App.success_response r))
  \/ (exists e, App.detect ext req s = (Raise e, s') /\ o = Raise e).
Proof.
  unfold App.process_frame_try, bind, ret.
  destruct (App.detect ext req s) as [[r|e] s1]; intros H;
    injection H as <- <-; eauto.
Qed.

(** Every response of the handler is one of the two [jsonify] calls. *)
Lemma process_frame_inv (req : request) (s s' : tracking)
    (resp : App.response) :
  App.process_frame ext req s = (Ok resp, s') ->
  (exists r, App.detect ext req s = (Ok r, s') /\ resp = App.success_response r)
  \/ (exists e, App.detect ext req s = (Raise e, s')
                /\ exc_is_Exception e = true /\ resp = App.error_response e).
Proof.
  unfold App.process_frame, try_except_Exception.
  destruct (App.process_frame_try ext req s) as [o s1] eqn:Htry.
  apply process_frame_try_inv in Htry as [(r & Hd & ->)|(e & Hd & ->)].
  - intros H; injection H as <- <-. left; eauto.
  - destruct (exc_is_Exception e) eqn:He; unfold ret; intros H.
    + injection H as <- <-. right; eauto.
    + discriminate.
Qed.

(** A response whose [success] member is true is the one built at
    app.py:59-63. *)
Lemma success_response_inv (req : request) (s s' : tracking)
    (resp : App.response) :
  App.process_frame ext req s = (Ok resp, s') ->
  App.field resp "success" = Some (PyBool true) ->
  exists r, App.detect ext req s = (Ok r, s') /\ resp = App.success_response r.
Proof.
  intros H Hs. apply process_frame_inv in H as [?|(e & _ & _ & ->)]; [done|].
  rewrite field_success_error in Hs. discriminate.
Qed.

Lemma detect_ok_process_frame (req : request) (s s' : tracking)
    (r : SolutionOutputs) :
  App.detect ext req s = (Ok r, s') ->
  App.process_frame ext req s = (Ok (App.success_response r), s').
Proof.
  intros H. unfold App.process_frame, try_except_Exception,
    App.process_frame_try, bind, ret. by rewrite H.
Qed.

End HandlerFacts.

Lemma landmarks_data_lookup (r : SolutionOutputs) (i : nat)
    (h : NormalizedLandmarkList) :
  hands_of r !! i = Some h ->
  App.landmarks_data r !! i = Some (PyList (App.landmark_record <$> landmark h)).
Proof.
  intros H. rewrite landmarks_data_fmap, list_lookup_fmap, H. simpl.
  by rewrite hand_records_fmap.
Qed.

Lemma landmarks_data_entry (r : SolutionOutputs) (entry : pyval) :
  entry ∈ App.landmarks_data r ->
  exists h, h ∈ hands_of r /\ entry = PyList (App.landmark_record <$> landmark h).
Proof.
  rewrite landmarks_data_fmap. intros H.
  apply list_elem_of_fmap in H as (h & -> & Hh).
  exists h. split; [done|]. by rewrite hand_records_fmap.
Qed.

Lemma landmark_record_xyz (lm : NormalizedLandmark) :
  App.xyz_record (App.landmark_record lm).
Proof. exists (lm_x lm), (lm_y lm), (lm_z lm). reflexivity. Qed.

Section DetectFacts.

Context {request frame tracking : Type}.
Variable ext : @App.externals request frame tracking.

(** A detection result that reaches the shaping code is what
    [hands.process] returned, called with the options of app.py:13-18. *)
Lemma detect_ok_inv (req : request) (s s' : tracking) (r : SolutionOutputs) :
  App.detect ext req s = (Ok r, s') ->
  exists rgb_frame,
    App.process ext App.hands_options rgb_frame s = (Ok r, s').
Proof.
  unfold App.detect, bind, lift.
  destruct (App.get_json ext req) as [data|e]; [|discriminate].
  destruct (App.image_bytes_of ext data) as [b|e]; [|discriminate].
  destruct (App.imdecode ext (App.frombuffer b)) as [f|e]; [|discriminate].
  destruct (App.cvtColor ext f) as [rgb|e]; [|discriminate].
  eauto.
Qed.

End DetectFacts.

(** C2: in every success response of POST /process_frame, [hand_count] is
    the length of the [landmarks] list. *)
Theorem hand_count_is_len_landmarks {request frame tracking : Type}
    (ext : @App.externals request frame tracking)
    (req : request) (s s' : tracking) (resp : App.response) :
  App.process_frame ext req s = (Ok resp, s') ->
  App.field resp "success" = Some (PyBool true) ->
  exists L,
    App.field resp "landmarks" = Some (PyList L)
    /\ App.field resp "hand_count" = Some (PyInt (Z.of_nat (length L))).
Proof.
  intros H Hs.
  destruct (success_response_inv ext req s s' resp H Hs) as (r & _ & ->).
  exists (App.landmarks_data r). split.
  - apply field_landmarks_ok.
  - apply field_hand_count_ok.
Qed.

Lemma hand_count_is_len_landmarks_witness :
  exists L,
    App.field (App.success_response
                 {| multi_hand_landmarks := Some [Stub.one_hand] |})
              "landmarks" = Some (PyList L)
    /\ App.field (App.success_response
                    {| multi_hand_landmarks := Some [Stub.one_hand] |})
                 "hand_count" = Some (PyInt (Z.of_nat (length L))).
Proof.
  apply (hand_count_is_len_landmarks Stub.web
           (Stub.body_of "data:image/jpeg;base64,aGk=") 0%nat 1%nat).
  - vm_compute. reflexivity.
  - vm_compute. reflexivity.
Defined.

(** C3: when the detector returns exactly 21 landmarks for each hand, every
    entry of [landmarks] in a success response is a list of exactly 21
    records, each with the members x, y and z, all numbers. *)
Theorem landmark_entries_are_21_records {request frame tracking : Type}
    (ext : @App.externals request frame tracking) :
  App.gives_21_landmarks ext ->
  forall (req : request) (s s' : tracking) (resp : App.response) (L : list pyval),
    App.process_frame ext req s = (Ok resp, s') ->
    App.field resp "success" = Some (PyBool true) ->
    App.field resp "landmarks" = Some (PyList L) ->
    forall entry, entry ∈ L ->
      exists records,
        entry = PyList records
        /\ length records = 21%nat
        /\ forall rec, rec ∈ records -> App.xyz_record rec.
Proof.
  intros H21 req s s' resp L H Hs HL entry Hentry.
  destruct (success_response_inv ext req s s' resp H Hs) as (r & Hd & ->).
  rewrite field_landmarks_ok in HL. injection HL as <-.
  destruct (landmarks_data_entry r entry Hentry) as (h & Hh & ->).
  destruct (detect_ok_inv ext req s s' r Hd) as (rgb & Hp).
  exists (App.landmark_record <$> landmark h). split; [reflexivity|]. split.
  - rewrite length_fmap. exact (H21 _ _ _ _ _ Hp h Hh).
  - intros rec Hrec. apply list_elem_of_fmap in Hrec as (lm & -> & _).
    apply landmark_record_xyz.
Qed.

Lemma stub_gives_21_landmarks : App.gives_21_landmarks Stub.web.
Proof.
  intros o f s r s' H h Hh. simpl in H. unfold Stub.counting_process in H.
  destruct f as [[|b bs]|]; [| |];
    try (injection H as <- <-; unfold hands_of in Hh; simpl in Hh;
         by apply elem_of_nil in Hh).
  destruct (Byte.eqb b Byte.x00).
  - injection H as <- <-. unfold hands_of in Hh; simpl in Hh.
    by apply elem_of_nil in Hh.
  - injection H as <- <-. unfold hands_of in Hh; simpl in Hh.
    destruct (Z.to_nat (max_num_hands o)); simpl in Hh.
    + by apply elem_of_nil in Hh.
    + rewrite take_nil in Hh. apply list_elem_of_singleton in Hh as ->.
      reflexivity.
Qed.

Lemma landmark_entries_are_21_records_witness :
  exists records,
    PyList (App.landmark_record <$> landmark Stub.one_hand) = PyList records
    /\ length records = 21%nat
    /\ forall rec, rec ∈ records -> App.xyz_record rec.
Proof.
  apply (landmark_entries_are_21_records Stub.web stub_gives_21_landmarks
           (Stub.body_of "data:image/jpeg;base64,aGk=") 0%nat 1%nat
           (App.success_response {| multi_hand_landmarks := Some [Stub.one_hand] |})
           [PyList (App.landmark_record <$> landmark Stub.one_hand)]).
  - vm_compute. reflexivity.
  - vm_compute. reflexivity.
  - vm_compute. reflexivity.
  - apply list_elem_of_singleton. reflexivity.
Defined.

(** C4: the shaping keeps order and values.  The i-th entry of [landmarks]
    is built from the i-th hand the detector returned, its j-th record from
    that hand's j-th landmark, and the record's x, y, z are that landmark's
    coordinates, unchanged; no entry or record is added or dropped. *)
Theorem landmarks_follow_detector {request frame tracking : Type}
    (ext : @App.externals request frame tracking)
    (req : request) (s s' : tracking) (r : SolutionOutputs) :
  App.detect ext req s = (Ok r, s') ->
  exists resp L,
    App.process_frame ext req s = (Ok resp, s')
    /\ App.field resp "landmarks" = Some (PyList L)
    /\ length L = length (hands_of r)
    /\ forall i h, hands_of r !! i = Some h ->
         exists records,
           L !! i = Some (PyList records)
           /\ length records = length (landmark h)
           /\ forall j lm, landmark h !! j = Some lm ->
                records !! j
                = Some (PyDict (<["x" := PyFloat (lm_x lm)]>
                                (<["y" := PyFloat (lm_y lm)]>
                                 (<["z" := PyFloat (lm_z lm)]> ∅)))).
Proof.
  intros Hd.
  exists (App.success_response r), (App.landmarks_data r).
  split; [by apply detect_ok_process_frame|].
  split; [apply field_landmarks_ok|].
  split; [apply length_landmarks_data|].
  intros i h Hi. exists (App.landmark_record <$> landmark h).
  split; [by apply landmarks_data_lookup|].
  split; [apply length_fmap|].
  intros j lm Hj. by rewrite list_lookup_fmap, Hj.
Qed.

Lemma landmarks_follow_detector_witness :
  exists resp L,
    App.process_frame Stub.web
      (Stub.body_of "data:image/jpeg;base64,aGk=") 0%nat = (Ok resp, 1%nat)
    /\ App.field resp "landmarks" = Some (PyList L)
    /\ length L = 1%nat
    /\ forall i h, [Stub.one_hand] !! i = Some h ->
         exists records,
           L !! i = Some (PyList records)
           /\ length records = length (landmark h)
           /\ forall j lm, landmark h !! j = Some lm ->
                records !! j
                = Some (PyDict (<["x" := PyFloat (lm_x lm)]>
                                (<["y" := PyFloat (lm_y lm)]>
                                 (<["z" := PyFloat (lm_z lm)]> ∅)))).
Proof.
  apply (landmarks_follow_detector Stub.web
           (Stub.body_of "data:image/jpeg;base64,aGk=") 0%nat 1%nat
           {| multi_hand_landmarks := Some [Stub.one_hand] |}).
  vm_compute. reflexivity.
Defined.

(** C6: when the detector finds no hand (its result is absent or empty),
    the response has success true, hand_count 0 and landmarks []. *)
Theorem no_hand_response {request frame tracking : Type}
    (ext : @App.externals request frame tracking)
    (req : request) (s s' : tracking) (r : SolutionOutputs) :
  App.detect ext req s = (Ok r, s') ->
  multi_hand_landmarks r = None \/ multi_hand_landmarks r = Some [] ->
  exists resp,
    App.process_frame ext req s = (Ok resp, s')
    /\ App.status_code resp = 200
    /\ App.field resp "success" = Some (PyBool true)
    /\ App.field resp "hand_count" = Some (PyInt 0)
    /\ App.field resp "landmarks" = Some (PyList []).
Proof.
  intros Hd Hnone.
  assert (App.landmarks_data r = []) as Hl.
  { unfold App.landmarks_data. by destruct Hnone as [-> | ->]. }
  exists (App.success_response r).
  split; [by apply detect_ok_process_frame|].
  split; [reflexivity|].
  split; [apply field_success_ok|].
  split.
  - rewrite field_hand_count_ok. by rewrite Hl.
  - rewrite field_landmarks_ok. by rewrite Hl.
Qed.

Lemma no_hand_response_witness :
  exists resp,
    App.process_frame Stub.web
      (Stub.body_of "data:image/png;base64,AAAA") 0%nat = (Ok resp, 1%nat)
    /\ App.status_code resp = 200
    /\ App.field resp "success" = Some (PyBool true)
    /\ App.field resp "hand_count" = Some (PyInt 0)
    /\ App.field resp "landmarks" = Some (PyList []).
Proof.
  apply (no_hand_response Stub.web (Stub.body_of "data:image/png;base64,AAAA")
           0%nat 1%nat {| multi_hand_landmarks := None |}).
  - vm_compute. reflexivity.
  - left. reflexivity.
Defined.


Lemma stub_honours_max_num_hands :
  App.honours_max_num_hands Stub.web App.hands_options.
Proof.
  intros f s r s' H. simpl in H. unfold Stub.counting_process in H.
  destruct f as [[|b bs]|]; [| |];
    try (injection H as <- <-; unfold hands_of; simpl; lia).
  destruct (Byte.eqb b Byte.x00); injection H as <- <-;
    unfold hands_of; simpl; lia.
Qed.

(** C7: when the detector honours its configured maximum, every response of
    POST /process_frame reports at most 2 hands, in [hand_count] and in the
    length of [landmarks]; both programs construct the detector with at most
    2 hands and both confidence thresholds at 0.7. *)
Theorem at_most_two_hands {request frame tracking : Type}
    (ext : @App.externals request frame tracking) :
  App.honours_max_num_hands ext App.hands_options ->
  (forall (req : request) (s s' : tracking) (resp : App.response),
     App.process_frame ext req s = (Ok resp, s') ->
     (forall n, App.field resp "hand_count" = Some (PyInt n) -> n <= 2)
     /\ (forall L, App.field resp "landmarks" = Some (PyList L) ->
                   (length L <= 2)%nat))
  /\ max_num_hands App.hands_options = 2
  /\ min_detection_confidence App.hands_options = 0.7%float
  /\ min_tracking_confidence App.hands_options = 0.7%float
  /\ max_num_hands HandTracking.hands_options = 2
  /\ min_detection_confidence HandTracking.hands_options = 0.7%float
  /\ min_tracking_confidence HandTracking.hands_options = 0.7%float.
Proof.
  intros Hmax. split; [|by repeat split].
  intros req s s' resp H.
  apply process_frame_inv in H as [(r & Hd & ->)|(e & _ & _ & ->)].
  - destruct (detect_ok_inv ext req s s' r Hd) as (rgb & Hp).
    pose proof (Hmax _ _ _ _ Hp) as Hle. simpl in Hle.
    rewrite <- length_landmarks_data in Hle.
    split.
    + intros n Hn. rewrite field_hand_count_ok in Hn. injection Hn as <-. lia.
    + intros L HL. rewrite field_landmarks_ok in HL. injection HL as <-. lia.
  - split.
    + intros n Hn. by rewrite field_error_others in Hn.
    + intros L HL. by rewrite field_error_others in HL.
Qed.

Lemma at_most_two_hands_witness :
  (forall (req : pyval) (s s' : nat) (resp : App.response),
     App.process_frame Stub.web req s = (Ok resp, s') ->
     (forall n, App.field resp "hand_count" = Some (PyInt n) -> n <= 2)
     /\ (forall L, App.field resp "landmarks" = Some (PyList L) ->
                   (length L <= 2)%nat))
  /\ max_num_hands App.hands_options = 2
  /\ min_detection_confidence App.hands_options = 0.7%float
  /\ min_tracking_confidence App.hands_options = 0.7%float
  /\ max_num_hands HandTracking.hands_options = 2
  /\ min_detection_confidence HandTracking.hands_options = 0.7%float
  /\ min_tracking_confidence HandTracking.hands_options = 0.7%float.
Proof.
  apply (at_most_two_hands Stub.web). exact stub_honours_max_num_hands.
Defined.

(** * The catch-all of the handler *)

Lemma getitem_text_nonempty (v : pyval) (key : string) (e : exc) :
  getitem v key = Raise e -> exc_str e <> EmptyString.
Proof.
  unfold getitem. destruct v as [| | | | |l|d]; try (intros [= <-]; by simpl).
  destruct (d !! key); [discriminate|]. intros [= <-]. by simpl.
Qed.

Lemma split_text_nonempty (v : pyval) (sep : Ascii.ascii) (e : exc) :
  split v sep = Raise e -> exc_str e <> EmptyString.
Proof.
  unfold split. destruct v; try discriminate; intros [= <-]; by simpl.
Qed.

Lemma list_getitem_text_nonempty {A} (l : list A) (i : nat) (e : exc) :
  list_getitem l i = Raise e -> exc_str e <> EmptyString.
Proof.
  unfold list_getitem. destruct (l !! i); [discriminate|].
  intros [= <-]. by simpl.
Qed.

Section CatchAll.

Context {request frame tracking : Type}.
Variable ext : @App.externals request frame tracking.

Lemma image_bytes_of_text_nonempty (data : pyval) (e : exc) :
  (forall t e, App.b64decode ext t = Raise e -> exc_str e <> EmptyString) ->
  App.image_bytes_of ext data = Raise e -> exc_str e <> EmptyString.
Proof.
  intros Hlib. unfold App.image_bytes_of.
  destruct (getitem data "image") as [image_data|e1] eqn:H1.
  - destruct (split image_data ",") as [pieces|e2] eqn:H2.
    + destruct (list_getitem pieces 1) as [piece|e3] eqn:H3.
      * apply Hlib.
      * intros [= <-]. by apply list_getitem_text_nonempty in H3.
    + intros [= <-]. by apply split_text_nonempty in H2.
  - intros [= <-]. by apply getitem_text_nonempty in H1.
Qed.

Lemma detect_text_nonempty (req : request) (s s' : tracking) (e : exc) :
  App.library_texts_nonempty ext ->
  App.detect ext req s = (Raise e, s') -> exc_str e <> EmptyString.
Proof.
  intros (Hjson & Hb64 & Himdecode & Hcvt & Hprocess).
  unfold App.detect, bind, lift.
  destruct (App.get_json ext req) as [data|e1] eqn:H1;
    [|intros [= <- _]; by apply Hjson in H1].
  destruct (App.image_bytes_of ext data) as [b|e2] eqn:H2;
    [|intros [= <- _]; by apply image_bytes_of_text_nonempty in H2].
  destruct (App.imdecode ext (App.frombuffer b)) as [f|e3] eqn:H3;
    [|intros [= <- _]; by apply Himdecode in H3].
  destruct (App.cvtColor ext f) as [rgb|e4] eqn:H4;
    [|intros [= <- _]; by apply Hcvt in H4].
  apply Hprocess.
Qed.

End CatchAll.

(** C1, as the code has it: when the processing of a POST /process_frame
    request raises an exception that derives from [Exception], the handler
    catches it and returns the HTTP 200 JSON response with success false and
    error the exception's text; nothing propagates.  The text is non-empty
    whenever the exceptions raised by the library calls have non-empty texts
    (those raised by the handler's own subscript, split and index steps
    always have).  An exception that does not derive from [Exception] is not
    caught: it leaves the handler. *)
Theorem process_frame_catches_Exception {request frame tracking : Type}
    (ext : @App.externals request frame tracking)
    (req : request) (s s' : tracking) (e : exc) :
  App.process_frame_try ext req s = (Raise e, s') ->
  (exc_is_Exception e = true ->
   exists resp,
     App.process_frame ext req s = (Ok resp, s')
     /\ App.status_code resp = 200
     /\ App.json resp = PyDict (<["success" := PyBool false]>
                                (<["error" := PyStr (exc_str e)]> ∅))
     /\ (App.library_texts_nonempty ext -> exc_str e <> EmptyString))
  /\ (exc_is_Exception e = false ->
      App.process_frame ext req s = (Raise e, s')).
Proof.
  intros Htry. split; intros He.
  - exists (App.error_response e).
    split; [|split; [reflexivity|split; [reflexivity|]]].
    + unfold App.process_frame, try_except_Exception. rewrite Htry, He.
      reflexivity.
    + intros Hlib.
      apply process_frame_try_inv in Htry as [(r & _ & [=])|(e' & Hd & [= <-])].
      by apply (detect_text_nonempty ext req s s' e Hlib).
  - unfold App.process_frame, try_except_Exception. by rewrite Htry, He.
Qed.

Lemma process_frame_catches_Exception_witness :
  (exists resp,
     App.process_frame Stub.web (Stub.body_of "aGk=") 0%nat = (Ok resp, 0%nat)
     /\ App.status_code resp = 200
     /\ App.json resp
        = PyDict (<["success" := PyBool false]>
                  (<["error" := PyStr "list index out of range"]> ∅))
     /\ (App.library_texts_nonempty Stub.web ->
         "list index out of range" <> EmptyString))
  /\ App.process_frame interrupted_decoding_web
       (Stub.body_of "data:image/jpeg;base64,aGk=") 0%nat
     = (Raise Stub.KeyboardInterrupt, 0%nat).
Proof.
  split.
  - refine (proj1 (process_frame_catches_Exception Stub.web
                     (Stub.body_of "aGk=") 0%nat 0%nat
                     (IndexError "list index out of range") _) _).
    + vm_compute. reflexivity.
    + reflexivity.
  - refine (proj2 (process_frame_catches_Exception interrupted_decoding_web
                     (Stub.body_of "data:image/jpeg;base64,aGk=") 0%nat 0%nat
                     Stub.KeyboardInterrupt _) _).
    + vm_compute. reflexivity.
    + reflexivity.
Defined.

(** C1 as stated fails in two ways.  [str(MemoryError())] is the empty
    string, so a decoder that runs out of memory yields the response with
    error the empty string; and an exception outside [Exception], here
    [KeyboardInterrupt] arriving during the base64 decoding, is not matched
    by [except Exception] and leaves the handler. *)
Lemma process_frame_error_text_or_catch_fails :
  (App.process_frame_try Stub.web_out_of_memory
     (Stub.body_of "data:image/jpeg;base64,aGk=") 0%nat
   = (Raise Stub.MemoryError, 0%nat)
   /\ App.process_frame Stub.web_out_of_memory
        (Stub.body_of "data:image/jpeg;base64,aGk=") 0%nat
      = (Ok (App.error_response Stub.MemoryError), 0%nat)
   /\ App.field (App.error_response Stub.MemoryError) "error"
      = Some (PyStr EmptyString))
  /\ (App.process_frame_try interrupted_decoding_web
        (Stub.body_of "data:image/jpeg;base64,aGk=") 0%nat
      = (Raise Stub.KeyboardInterrupt, 0%nat)
      /\ App.process_frame interrupted_decoding_web
           (Stub.body_of "data:image/jpeg;base64,aGk=") 0%nat
         = (Raise Stub.KeyboardInterrupt, 0%nat)).
Proof. repeat split; vm_compute; reflexivity. Qed.

(** * The ingestion step *)

(** [s.split(',')]: the text before the first comma, then the pieces of
    what follows it. *)
Lemma split_on_comma (s : string) :
  split_on "," s
  = up_to_comma s :: match after_first_comma s with
                     | Some rest => split_on "," rest
                     | None => []
                     end.
Proof.
  induction s as [|c s IH]; simpl; [reflexivity|].
  destruct (Ascii.eqb c ","); [reflexivity|].
  rewrite IH. reflexivity.
Qed.

Lemma up_to_comma_no_comma (s : string) :
  after_first_comma s = None -> up_to_comma s = s.
Proof.
  induction s as [|c s IH]; simpl; [reflexivity|].
  destruct (Ascii.eqb c ","); [discriminate|].
  intros H. by rewrite IH.
Qed.

(** C5, as the code has it: the handler takes the second piece of
    [image.split(',')].  For an image string with a comma, the bytes handed
    to the image decoder are the base64 decoding of the text between the
    first comma and the next one (or the end); when nothing but the payload
    follows the first comma, that is the base64 decoding of the string
    without its data-URL prefix.  An image string without a comma raises
    IndexError and no bytes reach the decoder. *)
Theorem image_bytes_after_first_comma {request frame tracking : Type}
    (ext : @App.externals request frame tracking)
    (data : pyval) (s : string) :
  getitem data "image" = Ok (PyStr s) ->
  match after_first_comma s with
  | None =>
      App.image_bytes_of ext data = Raise (IndexError "list index out of range")
  | Some rest =>
      App.image_bytes_of ext data = App.b64decode ext (up_to_comma rest)
      /\ (after_first_comma rest = None ->
          App.image_bytes_of ext data
          = App.b64decode ext (spec_strip_data_url_prefix s))
  end.
Proof.
  intros Hget. unfold App.image_bytes_of. rewrite Hget. simpl.
  rewrite split_on_comma. unfold spec_strip_data_url_prefix.
  destruct (after_first_comma s) as [rest|]; simpl.
  - rewrite split_on_comma. simpl. split; [reflexivity|].
    intros Hrest. by rewrite (up_to_comma_no_comma rest Hrest).
  - reflexivity.
Qed.

Lemma image_bytes_after_first_comma_witness :
  App.image_bytes_of Stub.web (Stub.body_of "data:image/jpeg;base64,aGk=")
  = App.b64decode Stub.web "aGk="
  /\ (after_first_comma "aGk=" = None ->
      App.image_bytes_of Stub.web (Stub.body_of "data:image/jpeg;base64,aGk=")
      = App.b64decode Stub.web
          (spec_strip_data_url_prefix "data:image/jpeg;base64,aGk=")).
Proof.
  apply (image_bytes_after_first_comma Stub.web
           (Stub.body_of "data:image/jpeg;base64,aGk=")
           "data:image/jpeg;base64,aGk=").
  vm_compute. reflexivity.
Defined.

(** C5 as stated fails in two ways.  On an image string that has no
    data-URL prefix, stripping leaves the string as it is and its base64
    decoding is the two bytes of "hi", but the handler raises IndexError
    before decoding.  On a data URL whose payload holds a comma, the handler
    decodes only the text up to that comma: three bytes, where the decoding
    of all that follows the prefix has five. *)
Lemma image_bytes_not_after_prefix :
  (App.b64decode Stub.web (spec_strip_data_url_prefix "aGk=")
   = Ok [Byte.x68; Byte.x69]
   /\ App.image_bytes_of Stub.web (Stub.body_of "aGk=")
      = Raise (IndexError "list index out of range"))
  /\ (App.b64decode Stub.web
        (spec_strip_data_url_prefix "data:image/jpeg;base64,AAAA,aGk=")
      = Ok [Byte.x00; Byte.x00; Byte.x00; Byte.x68; Byte.x69]
      /\ App.image_bytes_of Stub.web
           (Stub.body_of "data:image/jpeg;base64,AAAA,aGk=")
         = Ok [Byte.x00; Byte.x00; Byte.x00]).
Proof. repeat split; vm_compute; reflexivity. Qed.

(** * Properties of the capture loop *)

Section LoopFacts.

Context {frame world : Type}.
Variable ext : @HandTracking.externals frame world.

(** An iteration whose read fails: one message, then on to the next
    iteration.  Nothing else touches the outside world. *)
Lemma loop_body_failed_read (st : @HandTracking.state world) (fr : frame) (w' : world) :
  HandTracking.read ext (HandTracking.outside st) = ((false, fr), w') ->
  HandTracking.loop_body ext st
  = (Ok HandTracking.Next,
     {| HandTracking.outside := w';
        HandTracking.history :=
          HandTracking.history st
          ++ [HandTracking.c_read false;
              HandTracking.c_print "Ignoring empty camera frame."] |}).
Proof.
  intros Hread. unfold HandTracking.loop_body, bind, HandTracking.extern, ret.
  rewrite Hread. simpl. by rewrite <- app_assoc.
Qed.

(** How an iteration can end without an exception: after the message of a
    failed read, asking for the next iteration; or after [waitKey], with
    [break] exactly when the low byte of the key code is 27. *)
Lemma loop_body_inv (st st' : @HandTracking.state world) (fl : HandTracking.flow) :
  HandTracking.loop_body ext st = (Ok fl, st') ->
  (fl = HandTracking.Next
   /\ last (HandTracking.history st')
      = Some (HandTracking.c_print "Ignoring empty camera frame."))
  \/ (exists key,
        last (HandTracking.history st') = Some (HandTracking.c_waitKey 1 key)
        /\ fl = if Z.land key 255 =? 27 then HandTracking.Break
                else HandTracking.Next).
Proof.
  unfold HandTracking.loop_body, bind.
  destruct (HandTracking.extern _ _ st) as [[[success frame0]|e] st1]; [|discriminate].
  destruct success; simpl.
  - destruct (HandTracking.extern _ _ st1) as [[rgb|e] st2]; [|discriminate].
    destruct (HandTracking.extern _ _ st2) as [[results|e] st3]; [|discriminate].
    destruct ((if truthy (multi_hand_landmarks results)
               then HandTracking.draw_hands ext frame0 (hands_of results)
               else ret frame0) st3) as [[frame1|e] st4]; [|discriminate].
    destruct (HandTracking.extern _ _ st4) as [[[]|e] st5]; [|discriminate].
    unfold HandTracking.extern.
    destruct (HandTracking.waitKey ext 1 (HandTracking.outside st5))
      as [[key|e] w6]; [|discriminate].
    intros H. right. exists key.
    destruct (Z.land key 255 =? 27); unfold ret in H; injection H as <- <-;
      simpl; by rewrite last_snoc.
  - unfold HandTracking.extern, ret. simpl.
    intros H. injection H as <- <-. left. simpl. by rewrite last_snoc.
Qed.

(** The loop test fails: the loop is over. *)
Lemma while_closed (fuel : nat) (st : @HandTracking.state world) :
  HandTracking.isOpened ext (HandTracking.outside st) = false ->
  HandTracking.while_isOpened ext (S fuel) st
  = Some (Ok tt, HandTracking.record (HandTracking.c_isOpened false) st).
Proof. intros H. simpl. by rewrite H. Qed.

(** The loop test holds: the outcome of the iteration decides. *)
Lemma while_opened (fuel : nat) (st : @HandTracking.state world) :
  HandTracking.isOpened ext (HandTracking.outside st) = true ->
  HandTracking.while_isOpened ext (S fuel) st
  = match HandTracking.loop_body ext
            (HandTracking.record (HandTracking.c_isOpened true) st) with
    | (Ok HandTracking.Next, st2) => HandTracking.while_isOpened ext fuel st2
    | (Ok HandTracking.Break, st2) => Some (Ok tt, st2)
    | (Raise e, st2) => Some (Raise e, st2)
    end.
Proof. intros H. simpl. by rewrite H. Qed.

End LoopFacts.

(** C9: when a camera read in the loop is unsuccessful, the iteration
    prints one console message and raises nothing; the detector, the drawing
    and the display are not called in it (its history is the loop test, the
    read and the message, and the outside world is as the read left it).
    The loop then resumes with its next iteration: it tests
    [cap.isOpened()] again on that world and, when the capture is still
    opened, runs the body again from there. *)
Theorem failed_read_is_skipped {frame world : Type}
    (ext : @HandTracking.externals frame world)
    (st : @HandTracking.state world) (fr : frame) (w' : world) (fuel : nat) :
  HandTracking.isOpened ext (HandTracking.outside st) = true ->
  HandTracking.read ext (HandTracking.outside st) = ((false, fr), w') ->
  HandTracking.loop_body ext
    (HandTracking.record (HandTracking.c_isOpened true) st)
  = (Ok HandTracking.Next,
     {| HandTracking.outside := w';
        HandTracking.history :=
          HandTracking.history st
          ++ [HandTracking.c_isOpened true;
              HandTracking.c_read false;
              HandTracking.c_print "Ignoring empty camera frame."] |})
  /\ HandTracking.while_isOpened ext (S (S fuel)) st
     = if HandTracking.isOpened ext w' then
         match HandTracking.loop_body ext
                 {| HandTracking.outside := w';
                    HandTracking.history :=
                      HandTracking.history st
                      ++ [HandTracking.c_isOpened true;
                          HandTracking.c_read false;
                          HandTracking.c_print "Ignoring empty camera frame.";
                          HandTracking.c_isOpened true] |} with
         | (Ok HandTracking.Next, st2) =>
             HandTracking.while_isOpened ext fuel st2
         | (Ok HandTracking.Break, st2) => Some (Ok tt, st2)
         | (Raise e, st2) => Some (Raise e, st2)
         end
       else
         Some (Ok tt,
               {| HandTracking.outside := w';
                  HandTracking.history :=
                    HandTracking.history st
                    ++ [HandTracking.c_isOpened true;
                        HandTracking.c_read false;
                        HandTracking.c_print "Ignoring empty camera frame.";
                        HandTracking.c_isOpened false] |}).
Proof.
  intros Hopen Hread.
  assert (HandTracking.loop_body ext
            (HandTracking.record (HandTracking.c_isOpened true) st)
          = (Ok HandTracking.Next,
             {| HandTracking.outside := w';
                HandTracking.history :=
                  HandTracking.history st
                  ++ [HandTracking.c_isOpened true;
                      HandTracking.c_read false;
                      HandTracking.c_print "Ignoring empty camera frame."] |}))
    as Hbody.
  { rewrite (loop_body_failed_read ext _ fr w') by exact Hread.
    simpl. by rewrite <- app_assoc. }
  split; [exact Hbody|].
  rewrite while_opened by exact Hopen. rewrite Hbody.
  destruct (HandTracking.isOpened ext w') eqn:Hopen'.
  - rewrite while_opened by exact Hopen'.
    unfold HandTracking.record. cbn [HandTracking.outside HandTracking.history].
    by rewrite <- app_assoc.
  - rewrite while_closed by exact Hopen'.
    unfold HandTracking.record. cbn [HandTracking.outside HandTracking.history].
    by rewrite <- app_assoc.
Qed.

Lemma failed_read_is_skipped_witness :
  HandTracking.loop_body Stub.live
    (HandTracking.record (HandTracking.c_isOpened true)
       (Stub.start {| Stub.sim_opened := true; Stub.sim_reads := [false; true];
                      Stub.sim_keys := [27]; Stub.sim_shown := 0 |}))
  = (Ok HandTracking.Next,
     {| HandTracking.outside :=
          {| Stub.sim_opened := true; Stub.sim_reads := [true];
             Stub.sim_keys := [27]; Stub.sim_shown := 0 |};
        HandTracking.history :=
          [HandTracking.c_isOpened true;
           HandTracking.c_read false;
           HandTracking.c_print "Ignoring empty camera frame."] |})
  /\ HandTracking.while_isOpened Stub.live 2
       (Stub.start {| Stub.sim_opened := true; Stub.sim_reads := [false; true];
                      Stub.sim_keys := [27]; Stub.sim_shown := 0 |})
     = Some (Ok tt,
             {| HandTracking.outside :=
                  {| Stub.sim_opened := true; Stub.sim_reads := [];
                     Stub.sim_keys := []; Stub.sim_shown := 1 |};
                HandTracking.history :=
                  [HandTracking.c_isOpened true;
                   HandTracking.c_read false;
                   HandTracking.c_print "Ignoring empty camera frame.";
                   HandTracking.c_isOpened true;
                   HandTracking.c_read true;
                   HandTracking.c_cvtColor;
                   HandTracking.c_process;
                   HandTracking.c_imshow "Hand Tracking";
                   HandTracking.c_waitKey 1 27] |}).
Proof.
  apply (failed_read_is_skipped Stub.live
           (Stub.start {| Stub.sim_opened := true;
                          Stub.sim_reads := [false; true];
                          Stub.sim_keys := [27]; Stub.sim_shown := 0 |})
           None
           {| Stub.sim_opened := true; Stub.sim_reads := [true];
              Stub.sim_keys := [27]; Stub.sim_shown := 0 |} 0).
  - reflexivity.
  - reflexivity.
Defined.

(** C10, as the code has it: when the capture is not opened at startup, the
    program runs no iteration (it reads no frame and calls neither the
    detector nor the display) and goes straight to [cap.release()] and
    [cv2.destroyAllWindows()].  When both calls return, the program ends
    normally with the capture released and the windows destroyed; when one of
    them raises, the program ends with that exception. *)
Theorem unopened_capture_runs_no_iteration {frame world : Type}
    (ext : @HandTracking.externals frame world) (w : world) (fuel : nat) :
  HandTracking.isOpened ext (HandTracking.VideoCapture ext 0 w) = false ->
  (forall w1 w2,
     HandTracking.release ext (HandTracking.VideoCapture ext 0 w) = (Ok tt, w1) ->
     HandTracking.destroyAllWindows ext w1 = (Ok tt, w2) ->
     HandTracking.main ext (S fuel) w
     = Some (Ok tt,
             {| HandTracking.outside := w2;
                HandTracking.history :=
                  [HandTracking.c_VideoCapture 0;
                   HandTracking.c_isOpened false;
                   HandTracking.c_release;
                   HandTracking.c_destroyAllWindows] |}))
  /\ (forall e w1,
        HandTracking.release ext (HandTracking.VideoCapture ext 0 w)
        = (Raise e, w1) ->
        HandTracking.main ext (S fuel) w
        = Some (Raise e,
                {| HandTracking.outside := w1;
                   HandTracking.history :=
                     [HandTracking.c_VideoCapture 0;
                      HandTracking.c_isOpened false;
                      HandTracking.c_raised e] |}))
  /\ (forall e w1 w2,
        HandTracking.release ext (HandTracking.VideoCapture ext 0 w)
        = (Ok tt, w1) ->
        HandTracking.destroyAllWindows ext w1 = (Raise e, w2) ->
        HandTracking.main ext (S fuel) w
        = Some (Raise e,
                {| HandTracking.outside := w2;
                   HandTracking.history :=
                     [HandTracking.c_VideoCapture 0;
                      HandTracking.c_isOpened false;
                      HandTracking.c_release;
                      HandTracking.c_raised e] |})).
Proof.
  intros Hclosed. unfold HandTracking.main.
  rewrite while_closed by exact Hclosed.
  unfold HandTracking.cleanup, bind, HandTracking.extern, HandTracking.record.
  cbn [HandTracking.outside HandTracking.history].
  split; [|split].
  - intros w1 w2 Hrelease Hdestroy.
    rewrite Hrelease. cbn [HandTracking.outside HandTracking.history].
    by rewrite Hdestroy.
  - intros e w1 Hrelease. by rewrite Hrelease.
  - intros e w1 w2 Hrelease Hdestroy.
    rewrite Hrelease. cbn [HandTracking.outside HandTracking.history].
    by rewrite Hdestroy.
Qed.

Lemma unopened_capture_runs_no_iteration_witness :
  HandTracking.main Stub.live 1
    {| Stub.sim_opened := false; Stub.sim_reads := [true];
       Stub.sim_keys := []; Stub.sim_shown := 0 |}
  = Some (Ok tt,
          {| HandTracking.outside :=
               {| Stub.sim_opened := false; Stub.sim_reads := [true];
                  Stub.sim_keys := []; Stub.sim_shown := 0 |};
             HandTracking.history :=
               [HandTracking.c_VideoCapture 0;
                HandTracking.c_isOpened false;
                HandTracking.c_release;
                HandTracking.c_destroyAllWindows] |}).
Proof.
  apply (proj1 (unopened_capture_runs_no_iteration Stub.live
                  {| Stub.sim_opened := false; Stub.sim_reads := [true];
                     Stub.sim_keys := []; Stub.sim_shown := 0 |} 0 eq_refl)
           {| Stub.sim_opened := false; Stub.sim_reads := [true];
              Stub.sim_keys := []; Stub.sim_shown := 0 |}).
  - reflexivity.
  - reflexivity.
Defined.

(** C10 as stated fails on a build of OpenCV without window support: with
    the capture not opened the program runs no iteration and releases the
    capture, but [cv2.destroyAllWindows()] raises and the program ends with
    that exception, not cleanly. *)
Lemma unopened_capture_cleanup_may_raise :
  HandTracking.main headless_live 1
    {| Stub.sim_opened := false; Stub.sim_reads := [];
       Stub.sim_keys := []; Stub.sim_shown := 0 |}
  = Some (Raise (mk_exc "cv2.error" true
                   "OpenCV: error: (-2:Unspecified error) The function is not implemented."),
          {| HandTracking.outside :=
               {| Stub.sim_opened := false; Stub.sim_reads := [];
                  Stub.sim_keys := []; Stub.sim_shown := 0 |};
             HandTracking.history :=
               [HandTracking.c_VideoCapture 0;
                HandTracking.c_isOpened false;
                HandTracking.c_release;
                HandTracking.c_raised
                  (mk_exc "cv2.error" true
                     "OpenCV: error: (-2:Unspecified error) The function is not implemented.")] |}).
Proof. reflexivity. Qed.

(** C8, as the code has it: the loop ends normally when [cap.isOpened()] is
    false at the loop test, and when the key code that [waitKey(1)] returns
    at the end of an iteration has low byte 27 (ESC); it ends normally in no
    other way, so a failed read does not end it.  An exception raised in an
    iteration ends the loop with that exception. *)
Theorem loop_ends_on_esc_or_closed {frame world : Type}
    (ext : @HandTracking.externals frame world) :
  (forall fuel (st : @HandTracking.state world),
     HandTracking.isOpened ext (HandTracking.outside st) = false ->
     HandTracking.while_isOpened ext (S fuel) st
     = Some (Ok tt, HandTracking.record (HandTracking.c_isOpened false) st))
  /\ (forall fuel (st st' : @HandTracking.state world) fl key,
        HandTracking.isOpened ext (HandTracking.outside st) = true ->
        HandTracking.loop_body ext
          (HandTracking.record (HandTracking.c_isOpened true) st) = (Ok fl, st') ->
        last (HandTracking.history st') = Some (HandTracking.c_waitKey 1 key) ->
        Z.land key 255 = 27 ->
        HandTracking.while_isOpened ext (S fuel) st = Some (Ok tt, st'))
  /\ (forall fuel (st st' : @HandTracking.state world),
        HandTracking.while_isOpened ext fuel st = Some (Ok tt, st') ->
        last (HandTracking.history st') = Some (HandTracking.c_isOpened false)
        \/ exists key,
             last (HandTracking.history st') = Some (HandTracking.c_waitKey 1 key)
             /\ Z.land key 255 = 27)
  /\ (forall fuel (st st' : @HandTracking.state world) e,
        HandTracking.isOpened ext (HandTracking.outside st) = true ->
        HandTracking.loop_body ext
          (HandTracking.record (HandTracking.c_isOpened true) st) = (Raise e, st') ->
        HandTracking.while_isOpened ext (S fuel) st = Some (Raise e, st')).
Proof.
  split; [|split; [|split]].
  - intros fuel st Hclosed. by apply while_closed.
  - intros fuel st st' fl key Hopen Hbody Hlast Hesc.
    rewrite while_opened by exact Hopen. rewrite Hbody.
    apply loop_body_inv in Hbody as [[_ Hprint]|(key' & Hkey & ->)].
    + rewrite Hprint in Hlast. discriminate.
    + rewrite Hkey in Hlast. injection Hlast as ->.
      rewrite Hesc. reflexivity.
  - induction fuel as [|fuel IH]; intros st st' H; [discriminate|].
    destruct (HandTracking.isOpened ext (HandTracking.outside st)) eqn:Hopen.
    + rewrite while_opened in H by exact Hopen.
      destruct (HandTracking.loop_body ext _) as [[[|]|e] st2] eqn:Hbody.
      * by apply IH in H.
      * injection H as <-. right.
        apply loop_body_inv in Hbody as [[Hfl _]|(key & Hkey & Hfl)];
          [discriminate|].
        exists key. split; [exact Hkey|].
        destruct (Z.land key 255 =? 27) eqn:Hesc; [lia|discriminate].
      * discriminate.
    + rewrite while_closed in H by exact Hopen. injection H as <-.
      left. simpl. by rewrite last_snoc.
  - intros fuel st st' e Hopen Hbody.
    rewrite while_opened by exact Hopen. by rewrite Hbody.
Qed.

Lemma loop_ends_on_esc_or_closed_witness :
  HandTracking.while_isOpened Stub.live 1
    (Stub.start {| Stub.sim_opened := true; Stub.sim_reads := [true];
                   Stub.sim_keys := [1048603]; Stub.sim_shown := 0 |})
  = Some (Ok tt,
          {| HandTracking.outside :=
               {| Stub.sim_opened := true; Stub.sim_reads := [];
                  Stub.sim_keys := []; Stub.sim_shown := 1 |};
             HandTracking.history :=
               [HandTracking.c_isOpened true;
                HandTracking.c_read true;
                HandTracking.c_cvtColor;
                HandTracking.c_process;
                HandTracking.c_imshow "Hand Tracking";
                HandTracking.c_waitKey 1 1048603] |}).
Proof.
  apply (proj1 (proj2 (loop_ends_on_esc_or_closed Stub.live)) 0%nat
           (Stub.start {| Stub.sim_opened := true; Stub.sim_reads := [true];
                          Stub.sim_keys := [1048603]; Stub.sim_shown := 0 |})
           _ HandTracking.Break 1048603).
  - reflexivity.
  - reflexivity.
  - reflexivity.
  - reflexivity.
Defined.

Lemma dead_camera_keeps_looping (fuel : nat) (h : list HandTracking.call) :
  HandTracking.while_isOpened Stub.live fuel
    {| HandTracking.outside :=
         {| Stub.sim_opened := true; Stub.sim_reads := [];
            Stub.sim_keys := []; Stub.sim_shown := 0 |};
       HandTracking.history := h |}
  = None.
Proof.
  revert h. induction fuel as [|fuel IH]; intros h; [reflexivity|].
  rewrite while_opened by reflexivity.
  rewrite (loop_body_failed_read Stub.live _ None
             {| Stub.sim_opened := true; Stub.sim_reads := [];
                Stub.sim_keys := []; Stub.sim_shown := 0 |}) by reflexivity.
  apply IH.
Qed.

(** C8 as stated fails on camera read failure: with a capture that stays
    opened while every read fails, each iteration prints the message and asks
    for the next one, and the loop never ends, whatever the fuel. *)
Lemma loop_goes_on_after_read_failure :
  HandTracking.loop_body Stub.live
    (Stub.start {| Stub.sim_opened := true; Stub.sim_reads := [];
                   Stub.sim_keys := []; Stub.sim_shown := 0 |})
  = (Ok HandTracking.Next,
     {| HandTracking.outside :=
          {| Stub.sim_opened := true; Stub.sim_reads := [];
             Stub.sim_keys := []; Stub.sim_shown := 0 |};
        HandTracking.history :=
          [HandTracking.c_read false;
           HandTracking.c_print "Ignoring empty camera frame."] |})
  /\ ~ (exists fuel r,
          HandTracking.while_isOpened Stub.live fuel
            (Stub.start {| Stub.sim_opened := true; Stub.sim_reads := [];
                           Stub.sim_keys := []; Stub.sim_shown := 0 |})
          = Some r).
Proof.
  split; [reflexivity|].
  intros (fuel & r & H). unfold Stub.start in H.
  rewrite dead_camera_keeps_looping in H. discriminate.
Qed.

(** * Further properties of the web handler *)

Section RequestFacts.

Context {request frame tracking : Type}.
Variable ext : @App.externals request frame tracking.

(** A request whose image bytes cannot be produced is answered there and
    then, on the state it found. *)
Lemma process_frame_no_bytes (req : request) (s : tracking) (data : pyval)
    (e : exc) :
  App.get_json ext req = Ok data ->
  App.image_bytes_of ext data = Raise e ->
  exc_is_Exception e = true ->
  App.process_frame ext req s = (Ok (App.error_response e), s).
Proof.
  intros Hjson Hbytes He.
  unfold App.process_frame, try_except_Exception, App.process_frame_try,
    App.detect, bind, lift.
  rewrite Hjson, Hbytes, He. reflexivity.
Qed.

(** The handler's state and outcome, stage by stage. *)
Lemma detect_cases (req : request) (s s' : tracking)
    (o : outcome SolutionOutputs) :
  App.detect ext req s = (o, s') ->
  (exists rgb_frame, App.process ext App.hands_options rgb_frame s = (o, s'))
  \/ (s' = s /\ exists e, o = Raise e).
Proof.
  unfold App.detect, bind, lift.
  destruct (App.get_json ext req) as [data|e];
    [|intros [= <- <-]; right; eauto].
  destruct (App.image_bytes_of ext data) as [b|e];
    [|intros [= <- <-]; right; eauto].
  destruct (App.imdecode ext (App.frombuffer b)) as [f|e];
    [|intros [= <- <-]; right; eauto].
  destruct (App.cvtColor ext f) as [rgb|e];
    [|intros [= <- <-]; right; eauto].
  intros H. left. eauto.
Qed.

End RequestFacts.

Lemma after_first_comma_append (pre rest : string) :
  after_first_comma pre = None ->
  after_first_comma (pre +:+ String "," rest) = Some rest.
Proof.
  induction pre as [|c pre IH]; simpl; [reflexivity|].
  destruct (Ascii.eqb c ","); [discriminate|]. exact IH.
Qed.

(** X1: a JSON object without the member "image" is answered with HTTP 200,
    success false and error "'image'" (the text of the KeyError); the
    detector is not called and its state stays as it was. *)
Theorem missing_image_key_response {request frame tracking : Type}
    (ext : @App.externals request frame tracking)
    (req : request) (s : tracking) (d : gmap string pyval) :
  App.get_json ext req = Ok (PyDict d) ->
  d !! "image" = None ->
  App.process_frame ext req s
  = (Ok (App.jsonify (<["success" := PyBool false]>
                      (<["error" := PyStr "'image'"]> ∅))), s).
Proof.
  intros Hjson Hkey.
  apply (process_frame_no_bytes ext req s (PyDict d) (KeyError "image") Hjson);
    [|reflexivity].
  unfold App.image_bytes_of, getitem. by rewrite Hkey.
Qed.

Lemma missing_image_key_response_witness :
  App.process_frame Stub.web (PyDict (<["frame" := PyStr "aGk="]> ∅)) 7%nat
  = (Ok (App.jsonify (<["success" := PyBool false]>
                      (<["error" := PyStr "'image'"]> ∅))), 7%nat).
Proof.
  apply (missing_image_key_response Stub.web
           (PyDict (<["frame" := PyStr "aGk="]> ∅)) 7%nat
           (<["frame" := PyStr "aGk="]> ∅)).
  - reflexivity.
  - vm_compute. reflexivity.
Defined.

(** X2: a body that is not a JSON object (null, a boolean, a number, a
    string or an array) is answered with HTTP 200, success false and the text
    of the TypeError that subscripting it with 'image' raises; the detector
    state stays as it was. *)
Theorem non_object_body_response {request frame tracking : Type}
    (ext : @App.externals request frame tracking)
    (req : request) (s : tracking) (data : pyval) :
  App.get_json ext req = Ok data ->
  (forall d, data <> PyDict d) ->
  App.process_frame ext req s
  = (Ok (App.jsonify
           (<["success" := PyBool false]>
            (<["error" :=
                 PyStr match data with
                       | PyList _ =>
                           "list indices must be integers or slices, not str"
                       | PyStr _ =>
                           "string indices must be integers, not 'str'"
                       | _ =>
                           "'" +:+ type_name data
                           +:+ "' object is not subscriptable"
                       end]> ∅))), s).
Proof.
  intros Hjson Hnot.
  destruct data as [|b|n|f|t|l|d]; [..|by destruct (Hnot d)];
    by apply (process_frame_no_bytes ext req s _ (TypeError _) Hjson).
Qed.

Lemma non_object_body_response_witness :
  App.process_frame Stub.web PyNone 7%nat
  = (Ok (App.jsonify
           (<["success" := PyBool false]>
            (<["error" := PyStr "'NoneType' object is not subscriptable"]> ∅))),
     7%nat).
Proof.
  apply (non_object_body_response Stub.web PyNone 7%nat PyNone).
  - reflexivity.
  - discriminate.
Defined.

(** X3: when the member "image" is not a string, the answer is HTTP 200,
    success false and error "'T' object has no attribute 'split'", T being
    the Python type of the member; the detector state stays as it was. *)
Theorem non_string_image_response {request frame tracking : Type}
    (ext : @App.externals request frame tracking)
    (req : request) (s : tracking) (d : gmap string pyval) (v : pyval) :
  App.get_json ext req = Ok (PyDict d) ->
  d !! "image" = Some v ->
  (forall t, v <> PyStr t) ->
  App.process_frame ext req s
  = (Ok (App.jsonify
           (<["success" := PyBool false]>
            (<["error" := PyStr ("'" +:+ type_name v
                                 +:+ "' object has no attribute 'split'")]> ∅))),
     s).
Proof.
  intros Hjson Hkey Hnot.
  apply (process_frame_no_bytes ext req s (PyDict d)
           (AttributeError ("'" +:+ type_name v
                            +:+ "' object has no attribute 'split'")) Hjson);
    [|reflexivity].
  unfold App.image_bytes_of, getitem. rewrite Hkey.
  destruct v as [|b|n|f|t|l|d']; try reflexivity.
  by destruct (Hnot t).
Qed.

Lemma non_string_image_response_witness :
  App.process_frame Stub.web (PyDict (<["image" := PyInt 3]> ∅)) 7%nat
  = (Ok (App.jsonify
           (<["success" := PyBool false]>
            (<["error" := PyStr "'int' object has no attribute 'split'"]> ∅))),
     7%nat).
Proof.
  apply (non_string_image_response Stub.web
           (PyDict (<["image" := PyInt 3]> ∅)) 7%nat
           (<["image" := PyInt 3]> ∅) (PyInt 3)).
  - reflexivity.
  - vm_compute. reflexivity.
  - discriminate.
Defined.

(** X4: an image string without a comma, the empty string included, is
    answered with HTTP 200, success false and error "list index out of
    range"; neither the base64 decoder nor the detector is reached, whatever
    they would do. *)
Theorem image_without_comma_response {request frame tracking : Type}
    (ext : @App.externals request frame tracking)
    (req : request) (s : tracking) (d : gmap string pyval) (image : string) :
  App.get_json ext req = Ok (PyDict d) ->
  d !! "image" = Some (PyStr image) ->
  after_first_comma image = None ->
  App.process_frame ext req s
  = (Ok (App.jsonify
           (<["success" := PyBool false]>
            (<["error" := PyStr "list index out of range"]> ∅))), s).
Proof.
  intros Hjson Hkey Hcomma.
  apply (process_frame_no_bytes ext req s (PyDict d)
           (IndexError "list index out of range") Hjson); [|reflexivity].
  unfold App.image_bytes_of, getitem. rewrite Hkey. simpl.
  rewrite split_on_comma, Hcomma. reflexivity.
Qed.

Lemma image_without_comma_response_witness :
  App.process_frame Stub.web_out_of_memory (Stub.body_of EmptyString) 7%nat
  = (Ok (App.jsonify
           (<["success" := PyBool false]>
            (<["error" := PyStr "list index out of range"]> ∅))), 7%nat).
Proof.
  apply (image_without_comma_response Stub.web_out_of_memory
           (Stub.body_of EmptyString) 7%nat
           (<["image" := PyStr EmptyString]> ∅) EmptyString).
  - reflexivity.
  - vm_compute. reflexivity.
  - reflexivity.
Defined.

(** X5: the detector's tracking state changes only through the one call of
    [hands.process], made with the options of app.py:13-18 on the state the
    request found.  When the state after the request is not the result of
    such a call, it is the state the request found, and the response, if
    any, has success false. *)
Theorem tracking_changes_only_in_detector {request frame tracking : Type}
    (ext : @App.externals request frame tracking)
    (req : request) (s s' : tracking) (o : outcome App.response) :
  App.process_frame ext req s = (o, s') ->
  (exists rgb_frame out,
     App.process ext App.hands_options rgb_frame s = (out, s'))
  \/ (s' = s
      /\ forall resp, o = Ok resp ->
           App.field resp "success" = Some (PyBool false)).
Proof.
  unfold App.process_frame, try_except_Exception, App.process_frame_try,
    bind, ret.
  destruct (App.detect ext req s) as [[r|e] s1] eqn:Hd; intros H.
  - injection H as <- <-.
    apply detect_cases in Hd as [(rgb & Hp)|(_ & e & [=])]. left; eauto.
  - assert (s' = s1) as -> by (destruct (exc_is_Exception e); by injection H).
    apply detect_cases in Hd as [(rgb & Hp)|(-> & _)]; [left; eauto|].
    right. split; [reflexivity|]. intros resp ->.
    destruct (exc_is_Exception e); [|discriminate].
    injection H as <-. apply field_success_error.
Qed.

Lemma tracking_changes_only_in_detector_witness :
  (exists rgb_frame out,
     App.process Stub.web App.hands_options rgb_frame 7%nat = (out, 8%nat))
  \/ (8%nat = 7%nat
      /\ forall resp,
           Ok (App.success_response
                 {| multi_hand_landmarks := Some [Stub.one_hand] |}) = Ok resp ->
           App.field resp "success" = Some (PyBool false)).
Proof.
  apply (tracking_changes_only_in_detector Stub.web
           (Stub.body_of "data:image/jpeg;base64,aGk=") 7%nat 8%nat).
  vm_compute. reflexivity.
Defined.

(** X6: whatever the handler returns has HTTP status 200, and whatever
    exception leaves it does not derive from [Exception]. *)
Theorem process_frame_outcomes {request frame tracking : Type}
    (ext : @App.externals request frame tracking)
    (req : request) (s s' : tracking) (o : outcome App.response) :
  App.process_frame ext req s = (o, s') ->
  match o with
  | Ok resp => App.status_code resp = 200
  | Raise e => exc_is_Exception e = false
  end.
Proof.
  unfold App.process_frame, try_except_Exception.
  destruct (App.process_frame_try ext req s) as [o1 s1] eqn:Htry.
  apply process_frame_try_inv in Htry as [(r & _ & ->)|(e & _ & ->)].
  - intros [= <- _]. reflexivity.
  - destruct (exc_is_Exception e) eqn:He; intros [= <- _]; [reflexivity|done].
Qed.

Lemma process_frame_outcomes_witness :
  exc_is_Exception Stub.KeyboardInterrupt = false.
Proof.
  apply (process_frame_outcomes Stub.web_interrupted
           (Stub.body_of "data:image/jpeg;base64,aGk=") 0%nat 1%nat
           (Raise Stub.KeyboardInterrupt)).
  vm_compute. reflexivity.
Defined.

(** X7: the JSON body of every response is an object with exactly the
    members success, landmarks and hand_count, success being true, or with
    exactly the members success and error, success being false. *)
Theorem response_members {request frame tracking : Type}
    (ext : @App.externals request frame tracking)
    (req : request) (s s' : tracking) (resp : App.response) :
  App.process_frame ext req s = (Ok resp, s') ->
  exists d : gmap string pyval,
    App.json resp = PyDict d
    /\ ((d !! "success" = Some (PyBool true)
         /\ dom d = ({["success"; "landmarks"; "hand_count"]} : gset string))
        \/ (d !! "success" = Some (PyBool false)
            /\ dom d = ({["success"; "error"]} : gset string))).
Proof.
  intros H.
  apply process_frame_inv in H as [(r & _ & ->)|(e & _ & _ & ->)];
    (eexists; split; [reflexivity|]); [left|right];
    (split; [by rewrite lookup_insert_eq|]);
    rewrite !dom_insert_L, dom_empty_L; set_solver.
Qed.

Lemma response_members_witness :
  exists d : gmap string pyval,
    App.json (App.error_response (IndexError "list index out of range"))
    = PyDict d
    /\ ((d !! "success" = Some (PyBool true)
         /\ dom d = ({["success"; "landmarks"; "hand_count"]} : gset string))
        \/ (d !! "success" = Some (PyBool false)
            /\ dom d = ({["success"; "error"]} : gset string))).
Proof.
  apply (response_members Stub.web (Stub.body_of "aGk=") 0%nat 0%nat).
  vm_compute. reflexivity.
Defined.

(** X8: the path of a well-formed request.  When the body is a JSON object
    whose image is a data URL (no comma before the separating one, none in
    the payload), the payload decodes, the bytes decode to a frame, the
    conversion succeeds and the detector returns a result, the handler
    returns the success response built from that result, with the state the
    detector left. *)
Theorem data_url_request_succeeds {request frame tracking : Type}
    (ext : @App.externals request frame tracking)
    (req : request) (s s' : tracking) (d : gmap string pyval)
    (prefix payload : string) (image_bytes : list Byte.byte)
    (frame0 rgb_frame : frame) (results : SolutionOutputs) :
  App.get_json ext req = Ok (PyDict d) ->
  d !! "image" = Some (PyStr (prefix +:+ String "," payload)) ->
  after_first_comma prefix = None ->
  after_first_comma payload = None ->
  App.b64decode ext payload = Ok image_bytes ->
  App.imdecode ext image_bytes = Ok frame0 ->
  App.cvtColor ext frame0 = Ok rgb_frame ->
  App.process ext App.hands_options rgb_frame s = (Ok results, s') ->
  App.process_frame ext req s = (Ok (App.success_response results), s').
Proof.
  intros Hjson Hkey Hpre Hpay Hb64 Himdecode Hcvt Hprocess.
  apply detect_ok_process_frame.
  unfold App.detect, bind, lift. rewrite Hjson.
  assert (App.image_bytes_of ext (PyDict d) = Ok image_bytes) as ->.
  { unfold App.image_bytes_of, getitem. rewrite Hkey. simpl.
    rewrite split_on_comma, (after_first_comma_append _ _ Hpre).
    rewrite split_on_comma. simpl.
    by rewrite (up_to_comma_no_comma _ Hpay). }
  unfold App.frombuffer. by rewrite Himdecode, Hcvt.
Qed.

Lemma data_url_request_succeeds_witness :
  App.process_frame Stub.web (Stub.body_of "data:image/jpeg;base64,aGk=") 7%nat
  = (Ok (App.success_response
           {| multi_hand_landmarks := Some [Stub.one_hand] |}), 8%nat).
Proof.
  apply (data_url_request_succeeds Stub.web
           (Stub.body_of "data:image/jpeg;base64,aGk=") 7%nat 8%nat
           (<["image" := PyStr "data:image/jpeg;base64,aGk="]> ∅)
           "data:image/jpeg;base64" "aGk=" [Byte.x68; Byte.x69]
           (Some [Byte.x68; Byte.x69]) (Some [Byte.x69; Byte.x68])).
  - reflexivity.
  - vm_compute. reflexivity.
  - reflexivity.
  - reflexivity.
  - reflexivity.
  - reflexivity.
  - reflexivity.
  - reflexivity.
Defined.

(** X9: the answer depends on the request only through the image string
    after its first comma.  Two requests whose bodies are JSON objects with
    image strings that agree after the first comma (other media type, other
    members beside "image") get the same outcome from the same state. *)
Theorem text_before_first_comma_is_ignored {request frame tracking : Type}
    (ext : @App.externals request frame tracking)
    (req1 req2 : request) (s : tracking) (d1 d2 : gmap string pyval)
    (image1 image2 : string) :
  App.get_json ext req1 = Ok (PyDict d1) ->
  App.get_json ext req2 = Ok (PyDict d2) ->
  d1 !! "image" = Some (PyStr image1) ->
  d2 !! "image" = Some (PyStr image2) ->
  after_first_comma image1 = after_first_comma image2 ->
  App.process_frame ext req1 s = App.process_frame ext req2 s.
Proof.
  intros Hjson1 Hjson2 Hkey1 Hkey2 Hsame.
  assert (App.image_bytes_of ext (PyDict d1) = App.image_bytes_of ext (PyDict d2))
    as Hbytes.
  { unfold App.image_bytes_of, getitem. rewrite Hkey1, Hkey2. simpl.
    rewrite !split_on_comma, Hsame. reflexivity. }
  unfold App.process_frame, App.process_frame_try, App.detect, bind, lift.
  rewrite Hjson1, Hjson2. cbv beta iota. by rewrite Hbytes.
Qed.

Lemma text_before_first_comma_is_ignored_witness :
  App.process_frame Stub.web (Stub.body_of "data:image/jpeg;base64,aGk=") 7%nat
  = App.process_frame Stub.web
      (PyDict (<["image" := PyStr "data:image/png;base64,aGk="]>
               (<["seq" := PyInt 12]> ∅))) 7%nat.
Proof.
  apply (text_before_first_comma_is_ignored Stub.web
           (Stub.body_of "data:image/jpeg;base64,aGk=")
           (PyDict (<["image" := PyStr "data:image/png;base64,aGk="]>
                    (<["seq" := PyInt 12]> ∅)))
           7%nat
           (<["image" := PyStr "data:image/jpeg;base64,aGk="]> ∅)
           (<["image" := PyStr "data:image/png;base64,aGk="]>
            (<["seq" := PyInt 12]> ∅))
           "data:image/jpeg;base64,aGk=" "data:image/png;base64,aGk=").
  - reflexivity.
  - reflexivity.
  - vm_compute. reflexivity.
  - vm_compute. reflexivity.
  - reflexivity.
Defined.

(** X10: in a success response [hand_count] is the number of hands the
    detector returned, and it is 0 only when the detector's result is absent
    or empty. *)
Theorem hand_count_is_number_of_hands {request frame tracking : Type}
    (ext : @App.externals request frame tracking)
    (req : request) (s s' : tracking) (r : SolutionOutputs) :
  App.detect ext req s = (Ok r, s') ->
  exists resp,
    App.process_frame ext req s = (Ok resp, s')
    /\ App.field resp "hand_count"
       = Some (PyInt (Z.of_nat (length (hands_of r))))
    /\ (App.field resp "hand_count" = Some (PyInt 0) ->
        multi_hand_landmarks r = None \/ multi_hand_landmarks r = Some []).
Proof.
  intros Hd. exists (App.success_response r).
  split; [by apply detect_ok_process_frame|].
  rewrite field_hand_count_ok, length_landmarks_data.
  split; [reflexivity|].
  intros [= Hzero]. unfold hands_of in Hzero.
  destruct (multi_hand_landmarks r) as [[|h hs]|]; simpl in Hzero; auto.
  lia.
Qed.

Lemma hand_count_is_number_of_hands_witness :
  exists resp,
    App.process_frame Stub.web
      (Stub.body_of "data:image/jpeg;base64,aGk=") 0%nat = (Ok resp, 1%nat)
    /\ App.field resp "hand_count" = Some (PyInt 1)
    /\ (App.field resp "hand_count" = Some (PyInt 0) ->
        Some [Stub.one_hand] = None \/ Some [Stub.one_hand] = Some []).
Proof.
  apply (hand_count_is_number_of_hands Stub.web
           (Stub.body_of "data:image/jpeg;base64,aGk=") 0%nat 1%nat
           {| multi_hand_landmarks := Some [Stub.one_hand] |}).
  vm_compute. reflexivity.
Defined.

Lemma split_on_nonempty (sep : Ascii.ascii) (s : string) :
  split_on sep s <> [].
Proof.
  destruct s as [|c s]; simpl; [discriminate|].
  destruct (Ascii.eqb c sep); [discriminate|].
  destruct (split_on sep s); discriminate.
Qed.

(** X11: [s.split(',')] loses nothing: joining the pieces with commas gives
    [s] back, there is at least one piece, and no piece holds a comma. *)
Theorem split_join_round_trip (s : string) :
  join_on "," (split_on "," s) = s
  /\ split_on "," s <> []
  /\ Forall (fun piece => after_first_comma piece = None) (split_on "," s).
Proof.
  split; [|split; [apply split_on_nonempty|]].
  - induction s as [|c s IH]; [reflexivity|].
    pose proof (split_on_nonempty "," s) as Hne.
    cbn [split_on]. destruct (Ascii.eqb c ",") eqn:Hc.
    + apply Ascii.eqb_eq in Hc as ->.
      destruct (split_on "," s) as [|p ps]; [done|].
      cbn [join_on]. cbn [join_on] in IH. by rewrite IH.
    + destruct (split_on "," s) as [|p ps]; [done|].
      cbn [join_on]. cbn [join_on] in IH.
      destruct ps as [|q qs]; simpl; by rewrite <- IH.
  - induction s as [|c s IH]; [by repeat constructor|].
    pose proof (split_on_nonempty "," s) as Hne.
    cbn [split_on]. destruct (Ascii.eqb c ",") eqn:Hc.
    + constructor; [reflexivity|exact IH].
    + destruct (split_on "," s) as [|p ps]; [done|].
      inversion IH as [|? ? Hp Hps]; subst.
      constructor; [|exact Hps]. simpl. by rewrite Hc.
Qed.

(** X17: a payload the libraries reject.  When the image is a data URL and
    the base64 decoder, the image decoder or the colour conversion raises an
    exception deriving from [Exception], the handler answers with HTTP 200,
    success false and that exception's text; the later stages and the
    detector are not called, and the tracking state stays as it was. *)
Theorem rejected_payload_response {request frame tracking : Type}
    (ext : @App.externals request frame tracking)
    (req : request) (s : tracking) (d : gmap string pyval)
    (prefix payload : string) (e : exc) :
  App.get_json ext req = Ok (PyDict d) ->
  d !! "image" = Some (PyStr (prefix +:+ String "," payload)) ->
  after_first_comma prefix = None ->
  after_first_comma payload = None ->
  App.b64decode ext payload = Raise e
  \/ (exists image_bytes,
        App.b64decode ext payload = Ok image_bytes
        /\ (App.imdecode ext image_bytes = Raise e
            \/ exists frame0,
                 App.imdecode ext image_bytes = Ok frame0
                 /\ App.cvtColor ext frame0 = Raise e)) ->
  exc_is_Exception e = true ->
  App.process_frame ext req s
  = (Ok (App.jsonify (<["success" := PyBool false]>
                      (<["error" := PyStr (exc_str e)]> ∅))), s).
Proof.
  intros Hjson Hkey Hpre Hpay Hfail He.
  assert (App.image_bytes_of ext (PyDict d) = App.b64decode ext payload)
    as Hbytes.
  { unfold App.image_bytes_of, getitem. rewrite Hkey. simpl.
    rewrite split_on_comma, (after_first_comma_append _ _ Hpre).
    rewrite split_on_comma. simpl.
    by rewrite (up_to_comma_no_comma _ Hpay). }
  unfold App.process_frame, try_except_Exception, App.process_frame_try,
    App.detect, bind, lift.
  rewrite Hjson, Hbytes. unfold App.frombuffer.
  destruct Hfail as [->|(image_bytes & -> & [->|(frame0 & -> & ->)])];
    by rewrite He.
Qed.

Lemma rejected_payload_response_witness :
  App.process_frame Stub.web (Stub.body_of "data:image/jpeg;base64,aGk") 7%nat
  = (Ok (App.jsonify (<["success" := PyBool false]>
                      (<["error" := PyStr "Incorrect padding"]> ∅))), 7%nat).
Proof.
  apply (rejected_payload_response Stub.web
           (Stub.body_of "data:image/jpeg;base64,aGk") 7%nat
           (<["image" := PyStr "data:image/jpeg;base64,aGk"]> ∅)
           "data:image/jpeg;base64" "aGk" Stub.binascii_Error).
  - reflexivity.
  - vm_compute. reflexivity.
  - reflexivity.
  - reflexivity.
  - left. reflexivity.
  - reflexivity.
Defined.

(** X18: a detector call that raises an exception deriving from
    [Exception] is answered with HTTP 200, success false and the exception's
    text, and the tracking state is the one the failed call left, not the one
    the request found. *)
Theorem detector_failure_response {request frame tracking : Type}
    (ext : @App.externals request frame tracking)
    (req : request) (s s' : tracking) (d : gmap string pyval)
    (prefix payload : string) (image_bytes : list Byte.byte)
    (frame0 rgb_frame : frame) (e : exc) :
  App.get_json ext req = Ok (PyDict d) ->
  d !! "image" = Some (PyStr (prefix +:+ String "," payload)) ->
  after_first_comma prefix = None ->
  after_first_comma payload = None ->
  App.b64decode ext payload = Ok image_bytes ->
  App.imdecode ext image_bytes = Ok frame0 ->
  App.cvtColor ext frame0 = Ok rgb_frame ->
  App.process ext App.hands_options rgb_frame s = (Raise e, s') ->
  exc_is_Exception e = true ->
  App.process_frame ext req s
  = (Ok (App.jsonify (<["success" := PyBool false]>
                      (<["error" := PyStr (exc_str e)]> ∅))), s').
Proof.
  intros Hjson Hkey Hpre Hpay Hb64 Himdecode Hcvt Hprocess He.
  assert (App.image_bytes_of ext (PyDict d) = Ok image_bytes) as Hbytes.
  { unfold App.image_bytes_of, getitem. rewrite Hkey. simpl.
    rewrite split_on_comma, (after_first_comma_append _ _ Hpre).
    rewrite split_on_comma. simpl.
    by rewrite (up_to_comma_no_comma _ Hpay). }
  unfold App.process_frame, try_except_Exception, App.process_frame_try,
    App.detect, bind, lift.
  rewrite Hjson, Hbytes. unfold App.frombuffer.
  by rewrite Himdecode, Hcvt, Hprocess, He.
Qed.

Lemma detector_failure_response_witness :
  App.process_frame failing_detector_web
    (Stub.body_of "data:image/jpeg;base64,aGk=") 7%nat
  = (Ok (App.jsonify (<["success" := PyBool false]>
                      (<["error" := PyStr "Graph has errors"]> ∅))), 8%nat).
Proof.
  apply (detector_failure_response failing_detector_web
           (Stub.body_of "data:image/jpeg;base64,aGk=") 7%nat 8%nat
           (<["image" := PyStr "data:image/jpeg;base64,aGk="]> ∅)
           "data:image/jpeg;base64" "aGk=" [Byte.x68; Byte.x69]
           (Some [Byte.x68; Byte.x69]) (Some [Byte.x69; Byte.x68])
           (mk_exc "RuntimeError" true "Graph has errors")).
  - reflexivity.
  - vm_compute. reflexivity.
  - reflexivity.
  - reflexivity.
  - reflexivity.
  - reflexivity.
  - reflexivity.
  - reflexivity.
  - reflexivity.
Defined.

(** * Further properties of the capture loop *)

Section IterationFacts.

Context {frame world : Type}.
Variable ext : @HandTracking.externals frame world.

(** The drawing loop leaves the outside world alone and enters one call in
    the history per hand, up to the first that raises. *)
Lemma draw_hands_trace (hs : list NormalizedLandmarkList) (frame0 : frame)
    (st st' : @HandTracking.state world) (o : outcome frame) :
  HandTracking.draw_hands ext frame0 hs st = (o, st') ->
  o = drawn ext frame0 hs
  /\ HandTracking.outside st' = HandTracking.outside st
  /\ exists n,
       (n <= length hs)%nat
       /\ HandTracking.history st'
          = HandTracking.history st
            ++ replicate n HandTracking.c_draw_landmarks
            ++ match o with
               | Ok _ => []
               | Raise e => [HandTracking.c_raised e]
               end
       /\ (forall frame1, o = Ok frame1 -> n = length hs).
Proof.
  revert frame0 st. induction hs as [|h hs IH]; intros frame0 st; simpl.
  - unfold ret. intros [= <- <-]. split; [reflexivity|]. split; [reflexivity|].
    exists 0%nat. simpl. rewrite app_nil_r. auto.
  - unfold bind, HandTracking.extern, lift.
    destruct (HandTracking.draw_landmarks ext frame0 h) as [frame1|e].
    + intros H. apply IH in H as (Ho & Hw & n & Hn & Hh & Hlen).
      split; [exact Ho|]. split; [exact Hw|].
      exists (S n). split; [lia|]. split.
      * rewrite Hh. simpl. by rewrite <- app_assoc.
      * intros f Hf. by rewrite (Hlen f Hf).
    + intros [= <- <-]. split; [reflexivity|]. split; [reflexivity|].
      exists 0%nat. simpl. split; [lia|]. split; [reflexivity|]. discriminate.
Qed.

End IterationFacts.

(** What an iteration enters in the history is one of the traces of
    [iteration_trace]. *)
Lemma loop_body_calls {frame world : Type}
    (ext : @HandTracking.externals frame world)
    (st st' : @HandTracking.state world) (o : outcome HandTracking.flow) :
  HandTracking.loop_body ext st = (o, st') ->
  exists calls,
    HandTracking.history st' = HandTracking.history st ++ calls
    /\ iteration_trace o calls.
Proof.
  unfold HandTracking.loop_body, bind.
  unfold HandTracking.extern at 1.
  destruct (HandTracking.read ext (HandTracking.outside st))
    as [[success frame0] w1].
  destruct success; cbn [fst negb].
  - unfold HandTracking.extern at 1, lift.
    destruct (HandTracking.cvtColor ext frame0) as [rgb_frame|e];
      cbn [HandTracking.outside HandTracking.history].
    + unfold HandTracking.extern at 1.
      cbn [HandTracking.outside HandTracking.history].
      destruct (HandTracking.process ext HandTracking.hands_options rgb_frame w1)
        as [[results|e] w2].
      * match goal with
        | |- context [(if truthy ?b then ?d else ?r) ?s] =>
            destruct ((if truthy b then d else r) s) as [o1 st4] eqn:Hdraw
        end.
        assert (exists n,
                  HandTracking.history st4
                  = HandTracking.history st
                    ++ [HandTracking.c_read true; HandTracking.c_cvtColor;
                        HandTracking.c_process]
                    ++ replicate n HandTracking.c_draw_landmarks
                    ++ match o1 with
                       | Ok _ => []
                       | Raise e => [HandTracking.c_raised e]
                       end) as (n & Hh4).
        { destruct (truthy (multi_hand_landmarks results)).
          - apply draw_hands_trace in Hdraw as (_ & _ & n & _ & Hh & _).
            exists n. rewrite Hh. cbn [HandTracking.history].
            by rewrite <- !app_assoc.
          - unfold ret in Hdraw. injection Hdraw as <- <-.
            exists 0%nat. cbn [HandTracking.history replicate].
            by rewrite <- !app_assoc. }
        destruct o1 as [frame1|e].
        -- unfold HandTracking.extern at 1.
           destruct (HandTracking.imshow ext "Hand Tracking" frame1
                       (HandTracking.outside st4)) as [[[]|e] w3].
           ++ unfold HandTracking.extern.
              cbn [HandTracking.outside HandTracking.history].
              destruct (HandTracking.waitKey ext 1 w3) as [[key|e] w4].
              ** intros H.
                 exists ([HandTracking.c_read true; HandTracking.c_cvtColor;
                          HandTracking.c_process]
                         ++ replicate n HandTracking.c_draw_landmarks
                         ++ [HandTracking.c_imshow "Hand Tracking";
                             HandTracking.c_waitKey 1 key]).
                 split.
                 --- destruct (Z.land key 255 =? 27); unfold ret in H;
                       injection H as <- <-; cbn [HandTracking.history];
                       rewrite Hh4, app_nil_r; by rewrite <- !app_assoc.
                 --- assert (o = Ok (if Z.land key 255 =? 27
                                     then HandTracking.Break
                                     else HandTracking.Next)) as ->.
                     { destruct (Z.land key 255 =? 27); unfold ret in H;
                         by injection H as <- <-. }
                     constructor.
              ** intros [= <- <-]. eexists. split;
                   [|apply (trace_waitKey_raised e n)].
                 cbn [HandTracking.history].
                 rewrite Hh4, app_nil_r. by rewrite <- !app_assoc.
           ++ intros [= <- <-]. eexists. split;
                [|apply (trace_draw_or_imshow_raised e n)].
              cbn [HandTracking.history].
              rewrite Hh4, app_nil_r. by rewrite <- !app_assoc.
        -- intros [= <- <-]. eexists. split;
             [|apply (trace_draw_or_imshow_raised e n)].
           by rewrite Hh4.
      * intros [= <- <-]. eexists. split; [|apply trace_process_raised].
        cbn [HandTracking.history]. by rewrite <- !app_assoc.
    + intros [= <- <-]. eexists. split; [|apply trace_cvtColor_raised].
      cbn [HandTracking.history]. by rewrite <- !app_assoc.
  - unfold HandTracking.extern, ret.
    cbn [HandTracking.outside HandTracking.history].
    intros [= <- <-]. eexists. split; [|apply trace_skipped].
    cbn [HandTracking.history]. by rewrite <- !app_assoc.
Qed.

Lemma iteration_trace_last_raised (o : outcome HandTracking.flow)
    (calls : list HandTracking.call) (e : exc) :
  iteration_trace o calls -> o = Raise e ->
  last calls = Some (HandTracking.c_raised e).
Proof.
  intros Ht He. destruct Ht; try discriminate; injection He as ->;
    try reflexivity.
  - rewrite app_assoc. apply last_snoc.
  - rewrite app_assoc.
    change [HandTracking.c_imshow "Hand Tracking"; HandTracking.c_raised e]
      with ([HandTracking.c_imshow "Hand Tracking"]
            ++ [HandTracking.c_raised e]).
    rewrite app_assoc. apply last_snoc.
Qed.

Lemma iteration_trace_in_loop (o : outcome HandTracking.flow)
    (calls : list HandTracking.call) :
  iteration_trace o calls ->
  Forall (fun c => c <> HandTracking.c_release
                   /\ c <> HandTracking.c_destroyAllWindows) calls.
Proof.
  intros Ht. destruct Ht;
    repeat first
      [ apply Forall_nil_2
      | apply Forall_cons_2; [split; discriminate|]
      | apply Forall_app_2
      | apply Forall_replicate; split; discriminate ].
Qed.

(** X12: the library calls of one iteration follow one fixed order, read,
    cvtColor, process, draw_landmarks (any number), imshow, waitKey, cut
    short only by a failed read (then the message is printed) or by the first
    call that raises, which is then the last entry.  So a frame is displayed
    only after the detector has processed it, and the keyboard is polled only
    after a frame was displayed. *)
Theorem loop_body_trace {frame world : Type}
    (ext : @HandTracking.externals frame world)
    (st st' : @HandTracking.state world) (o : outcome HandTracking.flow) :
  HandTracking.loop_body ext st = (o, st') ->
  exists calls,
    HandTracking.history st' = HandTracking.history st ++ calls
    /\ iteration_trace o calls
    /\ (forall e, o = Raise e -> last calls = Some (HandTracking.c_raised e))
    /\ (forall winname, HandTracking.c_imshow winname ∈ calls ->
        exists n rest,
          calls = [HandTracking.c_read true; HandTracking.c_cvtColor;
                   HandTracking.c_process]
                  ++ replicate n HandTracking.c_draw_landmarks
                  ++ HandTracking.c_imshow "Hand Tracking" :: rest).
Proof.
  intros H. destruct (loop_body_calls ext st st' o H) as (calls & Hh & Ht).
  exists calls. split; [exact Hh|]. split; [exact Ht|]. split.
  - intros e He. by apply (iteration_trace_last_raised o).
  - intros winname Hin. destruct Ht; [| | | |by eauto|by eauto]; exfalso.
    + repeat (apply elem_of_cons in Hin as [Hin|Hin]; [discriminate|]).
      by apply elem_of_nil in Hin.
    + repeat (apply elem_of_cons in Hin as [Hin|Hin]; [discriminate|]).
      by apply elem_of_nil in Hin.
    + repeat (apply elem_of_cons in Hin as [Hin|Hin]; [discriminate|]).
      by apply elem_of_nil in Hin.
    + rewrite !elem_of_app in Hin. destruct Hin as [Hin|[Hin|Hin]].
      * repeat (apply elem_of_cons in Hin as [Hin|Hin]; [discriminate|]).
        by apply elem_of_nil in Hin.
      * by apply elem_of_replicate in Hin as [? _].
      * repeat (apply elem_of_cons in Hin as [Hin|Hin]; [discriminate|]).
        by apply elem_of_nil in Hin.
Qed.

Lemma loop_body_trace_witness :
  exists calls,
    [HandTracking.c_read true; HandTracking.c_cvtColor; HandTracking.c_process;
     HandTracking.c_imshow "Hand Tracking"; HandTracking.c_waitKey 1 27]
    = [] ++ calls
    /\ iteration_trace (Ok HandTracking.Break) calls
    /\ (forall e, Ok HandTracking.Break = Raise e ->
        last calls = Some (HandTracking.c_raised e))
    /\ (forall winname, HandTracking.c_imshow winname ∈ calls ->
        exists n rest,
          calls = [HandTracking.c_read true; HandTracking.c_cvtColor;
                   HandTracking.c_process]
                  ++ replicate n HandTracking.c_draw_landmarks
                  ++ HandTracking.c_imshow "Hand Tracking" :: rest).
Proof.
  apply (loop_body_trace Stub.live
           (Stub.start {| Stub.sim_opened := true; Stub.sim_reads := [true];
                          Stub.sim_keys := [27]; Stub.sim_shown := 0 |})
           {| HandTracking.outside :=
                {| Stub.sim_opened := true; Stub.sim_reads := [];
                   Stub.sim_keys := []; Stub.sim_shown := 1 |};
              HandTracking.history :=
                [HandTracking.c_read true; HandTracking.c_cvtColor;
                 HandTracking.c_process;
                 HandTracking.c_imshow "Hand Tracking";
                 HandTracking.c_waitKey 1 27] |}
           (Ok HandTracking.Break)).
  reflexivity.
Defined.

(** X13: an iteration in which every call succeeds.  The detector gets the
    converted frame; [draw_landmarks] is called once per detected hand, in
    order, each time on the frame as the previous call left it, starting from
    the frame that was read; that frame, not the converted one, is displayed
    in the window "Hand Tracking"; then the keyboard is polled for 1 ms, and
    the iteration breaks the loop exactly when the key code's low byte is
    27. *)
Theorem loop_body_shown {frame world : Type}
    (ext : @HandTracking.externals frame world)
    (st : @HandTracking.state world) (frame0 rgb_frame frame1 : frame)
    (results : SolutionOutputs) (key : Z) (w1 w2 w3 w4 : world) :
  HandTracking.read ext (HandTracking.outside st) = ((true, frame0), w1) ->
  HandTracking.cvtColor ext frame0 = Ok rgb_frame ->
  HandTracking.process ext HandTracking.hands_options rgb_frame w1
  = (Ok results, w2) ->
  drawn ext frame0 (hands_of results) = Ok frame1 ->
  HandTracking.imshow ext "Hand Tracking" frame1 w2 = (Ok tt, w3) ->
  HandTracking.waitKey ext 1 w3 = (Ok key, w4) ->
  HandTracking.loop_body ext st
  = (Ok (if Z.land key 255 =? 27 then HandTracking.Break else HandTracking.Next),
     {| HandTracking.outside := w4;
        HandTracking.history :=
          HandTracking.history st
          ++ [HandTracking.c_read true; HandTracking.c_cvtColor;
              HandTracking.c_process]
          ++ replicate (length (hands_of results)) HandTracking.c_draw_landmarks
          ++ [HandTracking.c_imshow "Hand Tracking";
              HandTracking.c_waitKey 1 key] |}).
Proof.
  intros Hread Hcvt Hprocess Hdrawn Himshow HwaitKey.
  unfold HandTracking.loop_body, bind.
  unfold HandTracking.extern at 1. rewrite Hread. cbn [fst negb].
  unfold HandTracking.extern at 1, lift. rewrite Hcvt.
  cbn [HandTracking.outside HandTracking.history].
  unfold HandTracking.extern at 1.
  cbn [HandTracking.outside HandTracking.history]. rewrite Hprocess.
  match goal with
  | |- context [(if truthy ?b then ?d else ?r) ?s] =>
      destruct ((if truthy b then d else r) s) as [o1 st4] eqn:Hdraw
  end.
  assert (o1 = Ok frame1
          /\ HandTracking.outside st4 = w2
          /\ HandTracking.history st4
             = HandTracking.history st
               ++ [HandTracking.c_read true; HandTracking.c_cvtColor;
                   HandTracking.c_process]
               ++ replicate (length (hands_of results))
                    HandTracking.c_draw_landmarks) as (-> & Hw4 & Hh4).
  { destruct (truthy (multi_hand_landmarks results)) eqn:Ht.
    - apply draw_hands_trace in Hdraw as (Ho & Hw & n & _ & Hh & Hlen).
      rewrite Hdrawn in Ho. subst o1.
      rewrite (Hlen frame1 eq_refl) in Hh.
      split; [reflexivity|]. split; [exact Hw|].
      rewrite Hh. cbn [HandTracking.history].
      rewrite app_nil_r. by rewrite <- !app_assoc.
    - rewrite (truthy_false_no_hands results Ht) in Hdrawn |- *.
      simpl in Hdrawn. injection Hdrawn as <-.
      unfold ret in Hdraw. injection Hdraw as <- <-.
      split; [reflexivity|]. split; [reflexivity|].
      cbn [HandTracking.history length replicate]. by rewrite <- !app_assoc. }
  unfold HandTracking.extern at 1. rewrite Hw4, Himshow.
  unfold HandTracking.extern.
  cbn [HandTracking.outside HandTracking.history]. rewrite HwaitKey, Hh4.
  destruct (Z.land key 255 =? 27); unfold ret; by rewrite <- !app_assoc.
Qed.

Lemma loop_body_shown_witness :
  HandTracking.loop_body two_hands_live
    (Stub.start {| Stub.sim_opened := true; Stub.sim_reads := [true; true];
                   Stub.sim_keys := [-1]; Stub.sim_shown := 0 |})
  = (Ok (if Z.land (-1) 255 =? 27 then HandTracking.Break else HandTracking.Next),
     {| HandTracking.outside :=
          {| Stub.sim_opened := true; Stub.sim_reads := [true];
             Stub.sim_keys := []; Stub.sim_shown := 1 |};
        HandTracking.history :=
          []
          ++ [HandTracking.c_read true; HandTracking.c_cvtColor;
              HandTracking.c_process]
          ++ replicate 2 HandTracking.c_draw_landmarks
          ++ [HandTracking.c_imshow "Hand Tracking";
              HandTracking.c_waitKey 1 (-1)] |}).
Proof.
  apply (loop_body_shown two_hands_live
           (Stub.start {| Stub.sim_opened := true; Stub.sim_reads := [true; true];
                          Stub.sim_keys := [-1]; Stub.sim_shown := 0 |})
           (Some 1%nat) (Some 1%nat) (Some 201%nat)
           {| multi_hand_landmarks := Some [Stub.one_hand; Stub.one_hand] |} (-1)
           {| Stub.sim_opened := true; Stub.sim_reads := [true];
              Stub.sim_keys := [-1]; Stub.sim_shown := 0 |}
           {| Stub.sim_opened := true; Stub.sim_reads := [true];
              Stub.sim_keys := [-1]; Stub.sim_shown := 0 |}
           {| Stub.sim_opened := true; Stub.sim_reads := [true];
              Stub.sim_keys := [-1]; Stub.sim_shown := 1 |}
           {| Stub.sim_opened := true; Stub.sim_reads := [true];
              Stub.sim_keys := []; Stub.sim_shown := 1 |}).
  - reflexivity.
  - reflexivity.
  - reflexivity.
  - reflexivity.
  - reflexivity.
  - reflexivity.
Defined.

Section WhileFacts.

Context {frame world : Type}.
Variable ext : @HandTracking.externals frame world.

(** The loop only adds to the history, never a [release] or a
    [destroyAllWindows], and when it ends with an exception the raising call
    is the last entry. *)
Lemma while_calls (fuel : nat) (st st' : @HandTracking.state world)
    (o : outcome unit) :
  HandTracking.while_isOpened ext fuel st = Some (o, st') ->
  exists calls,
    HandTracking.history st' = HandTracking.history st ++ calls
    /\ Forall (fun c => c <> HandTracking.c_release
                        /\ c <> HandTracking.c_destroyAllWindows) calls
    /\ (forall e, o = Raise e -> last calls = Some (HandTracking.c_raised e)).
Proof.
  revert st. induction fuel as [|fuel IH]; intros st H; [discriminate|].
  destruct (HandTracking.isOpened ext (HandTracking.outside st)) eqn:Hopen.
  - rewrite while_opened in H by exact Hopen.
    destruct (HandTracking.loop_body ext _) as [o1 st2] eqn:Hbody.
    apply loop_body_calls in Hbody as (calls & Hh & Ht).
    cbn [HandTracking.record HandTracking.history] in Hh.
    pose proof (iteration_trace_in_loop _ _ Ht) as Hin.
    destruct o1 as [[|]|e].
    + apply IH in H as (calls' & Hh' & Hin' & Hlast').
      exists ([HandTracking.c_isOpened true] ++ calls ++ calls').
      split; [rewrite Hh', Hh; by rewrite <- !app_assoc|].
      split.
      * apply Forall_app_2; [|by apply Forall_app_2].
        apply Forall_cons_2; [split; discriminate|apply Forall_nil_2].
      * intros e He. specialize (Hlast' e He).
        rewrite app_assoc. destruct calls' as [|c calls'] using rev_ind;
          [discriminate|].
        rewrite app_assoc, last_snoc. by rewrite last_snoc in Hlast'.
    + injection H as <- <-.
      exists ([HandTracking.c_isOpened true] ++ calls).
      split; [rewrite Hh; by rewrite <- !app_assoc|].
      split; [|discriminate].
      apply Forall_app_2; [|exact Hin].
      apply Forall_cons_2; [split; discriminate|apply Forall_nil_2].
    + injection H as <- <-.
      exists ([HandTracking.c_isOpened true] ++ calls).
      split; [rewrite Hh; by rewrite <- !app_assoc|].
      split.
      * apply Forall_app_2; [|exact Hin].
        apply Forall_cons_2; [split; discriminate|apply Forall_nil_2].
      * intros e' [= <-].
        pose proof (iteration_trace_last_raised _ _ e Ht eq_refl) as Hlast.
        destruct calls as [|c calls] using rev_ind; [discriminate|].
        rewrite app_assoc, last_snoc. by rewrite last_snoc in Hlast.
  - rewrite while_closed in H by exact Hopen. injection H as <- <-.
    exists [HandTracking.c_isOpened false].
    split; [reflexivity|]. split; [|discriminate].
    apply Forall_cons_2; [split; discriminate|apply Forall_nil_2].
Qed.

(** Lines 43-44, when they return: the two calls, in order, are what
    they add to the history. *)
Lemma cleanup_ok_history (st1 st : @HandTracking.state world) :
  HandTracking.cleanup ext st1 = (Ok tt, st) ->
  HandTracking.history st
  = HandTracking.history st1
    ++ [HandTracking.c_release; HandTracking.c_destroyAllWindows].
Proof.
  unfold HandTracking.cleanup, bind, HandTracking.extern.
  destruct (HandTracking.release ext (HandTracking.outside st1))
    as [[[]|e] w1]; [|discriminate].
  cbn [HandTracking.outside HandTracking.history].
  destruct (HandTracking.destroyAllWindows ext w1) as [[[]|e] w2];
    [|discriminate].
  intros [= <-]. cbn [HandTracking.history]. by rewrite <- app_assoc.
Qed.

End WhileFacts.

(** X14: when the program ends normally, the capture is released and the
    windows are destroyed, in that order, as its last two calls, and at no
    earlier point. *)
Theorem main_releases_on_exit {frame world : Type}
    (ext : @HandTracking.externals frame world)
    (fuel : nat) (w : world) (st : @HandTracking.state world) :
  HandTracking.main ext fuel w = Some (Ok tt, st) ->
  exists calls,
    HandTracking.history st
    = HandTracking.c_VideoCapture 0
      :: calls ++ [HandTracking.c_release; HandTracking.c_destroyAllWindows]
    /\ Forall (fun c => c <> HandTracking.c_release
                        /\ c <> HandTracking.c_destroyAllWindows) calls.
Proof.
  unfold HandTracking.main.
  destruct (HandTracking.while_isOpened ext fuel _) as [[[[]|e] st1]|] eqn:Hloop;
    [|discriminate|discriminate].
  intros [= Hcleanup].
  apply while_calls in Hloop as (calls & Hh & Hin & _).
  exists calls. split; [|exact Hin].
  rewrite (cleanup_ok_history ext st1 st Hcleanup), Hh.
  reflexivity.
Qed.

Lemma main_releases_on_exit_witness :
  exists calls,
    [HandTracking.c_VideoCapture 0; HandTracking.c_isOpened true;
     HandTracking.c_read true; HandTracking.c_cvtColor; HandTracking.c_process;
     HandTracking.c_imshow "Hand Tracking"; HandTracking.c_waitKey 1 27;
     HandTracking.c_release; HandTracking.c_destroyAllWindows]
    = HandTracking.c_VideoCapture 0
      :: calls ++ [HandTracking.c_release; HandTracking.c_destroyAllWindows]
    /\ Forall (fun c => c <> HandTracking.c_release
                        /\ c <> HandTracking.c_destroyAllWindows) calls.
Proof.
  apply (main_releases_on_exit Stub.live 1
           {| Stub.sim_opened := true; Stub.sim_reads := [true];
              Stub.sim_keys := [27]; Stub.sim_shown := 0 |}
           {| HandTracking.outside :=
                {| Stub.sim_opened := false; Stub.sim_reads := [];
                   Stub.sim_keys := []; Stub.sim_shown := 1 |};
              HandTracking.history :=
                [HandTracking.c_VideoCapture 0; HandTracking.c_isOpened true;
                 HandTracking.c_read true; HandTracking.c_cvtColor;
                 HandTracking.c_process;
                 HandTracking.c_imshow "Hand Tracking";
                 HandTracking.c_waitKey 1 27;
                 HandTracking.c_release;
                 HandTracking.c_destroyAllWindows] |}).
  reflexivity.
Defined.

(** X15: when a call in the loop raises, the program ends with that
    exception, the raising call being the last entry of its history: the
    capture is not released and the windows are not destroyed. *)
Theorem main_skips_cleanup_on_exception {frame world : Type}
    (ext : @HandTracking.externals frame world)
    (fuel : nat) (w : world) (st : @HandTracking.state world) (e : exc) :
  HandTracking.while_isOpened ext fuel
    {| HandTracking.outside := HandTracking.VideoCapture ext 0 w;
       HandTracking.history := [HandTracking.c_VideoCapture 0] |}
  = Some (Raise e, st) ->
  HandTracking.main ext fuel w = Some (Raise e, st)
  /\ last (HandTracking.history st) = Some (HandTracking.c_raised e)
  /\ Forall (fun c => c <> HandTracking.c_release
                      /\ c <> HandTracking.c_destroyAllWindows)
            (HandTracking.history st).
Proof.
  intros Hloop. split.
  - unfold HandTracking.main. by rewrite Hloop.
  - apply while_calls in Hloop as (calls & Hh & Hin & Hlast).
    cbn [HandTracking.history] in Hh. specialize (Hlast e eq_refl).
    rewrite Hh. split.
    + destruct calls as [|c calls] using rev_ind; [discriminate|].
      rewrite app_assoc, last_snoc. by rewrite last_snoc in Hlast.
    + apply Forall_app_2; [|exact Hin].
      apply Forall_cons_2; [split; discriminate|apply Forall_nil_2].
Qed.

Lemma main_skips_cleanup_on_exception_witness :
  HandTracking.main headless_live 1
    {| Stub.sim_opened := true; Stub.sim_reads := [true];
       Stub.sim_keys := [27]; Stub.sim_shown := 0 |}
  = Some (Raise (mk_exc "cv2.error" true
                   "OpenCV: error: (-2:Unspecified error) The function is not implemented."),
          {| HandTracking.outside :=
               {| Stub.sim_opened := true; Stub.sim_reads := [];
                  Stub.sim_keys := [27]; Stub.sim_shown := 0 |};
             HandTracking.history :=
               [HandTracking.c_VideoCapture 0; HandTracking.c_isOpened true;
                HandTracking.c_read true; HandTracking.c_cvtColor;
                HandTracking.c_process;
                HandTracking.c_raised
                  (mk_exc "cv2.error" true
                     "OpenCV: error: (-2:Unspecified error) The function is not implemented.")] |})
  /\ last [HandTracking.c_VideoCapture 0; HandTracking.c_isOpened true;
           HandTracking.c_read true; HandTracking.c_cvtColor;
           HandTracking.c_process;
           HandTracking.c_raised
             (mk_exc "cv2.error" true
                "OpenCV: error: (-2:Unspecified error) The function is not implemented.")]
     = Some (HandTracking.c_raised
               (mk_exc "cv2.error" true
                  "OpenCV: error: (-2:Unspecified error) The function is not implemented."))
  /\ Forall (fun c => c <> HandTracking.c_release
                      /\ c <> HandTracking.c_destroyAllWindows)
       [HandTracking.c_VideoCapture 0; HandTracking.c_isOpened true;
        HandTracking.c_read true; HandTracking.c_cvtColor;
        HandTracking.c_process;
        HandTracking.c_raised
          (mk_exc "cv2.error" true
             "OpenCV: error: (-2:Unspecified error) The function is not implemented.")].
Proof.
  apply (main_skips_cleanup_on_exception headless_live 1
           {| Stub.sim_opened := true; Stub.sim_reads := [true];
              Stub.sim_keys := [27]; Stub.sim_shown := 0 |}
           {| HandTracking.outside :=
                {| Stub.sim_opened := true; Stub.sim_reads := [];
                   Stub.sim_keys := [27]; Stub.sim_shown := 0 |};
              HandTracking.history :=
                [HandTracking.c_VideoCapture 0; HandTracking.c_isOpened true;
                 HandTracking.c_read true; HandTracking.c_cvtColor;
                 HandTracking.c_process;
                 HandTracking.c_raised
                   (mk_exc "cv2.error" true
                      "OpenCV: error: (-2:Unspecified error) The function is not implemented.")] |}).
  reflexivity.
Defined.

(** X16: the exit test looks at the low byte of the key code only.  An
    iteration that polled the keyboard breaks the loop exactly when the key
    code is 27 modulo 256, so also for 27 with modifier bits set above the
    low byte, and not for -1, which [waitKey] returns when no key was
    pressed. *)
Theorem break_iff_low_byte_is_27 {frame world : Type}
    (ext : @HandTracking.externals frame world)
    (st st' : @HandTracking.state world) (fl : HandTracking.flow) (key : Z) :
  HandTracking.loop_body ext st = (Ok fl, st') ->
  last (HandTracking.history st') = Some (HandTracking.c_waitKey 1 key) ->
  (fl = HandTracking.Break <-> key mod 256 = 27)
  /\ (key = -1 -> fl = HandTracking.Next).
Proof.
  intros Hbody Hlast.
  apply loop_body_inv in Hbody as [[_ Hprint]|(key' & Hkey & ->)].
  { rewrite Hprint in Hlast. discriminate. }
  rewrite Hkey in Hlast. injection Hlast as ->.
  assert (Z.land key 255 = key mod 256) as ->.
  { change 255 with (Z.ones 8). rewrite Z.land_ones by lia. reflexivity. }
  split.
  - destruct (key mod 256 =? 27) eqn:Hesc.
    + split; [lia|reflexivity].
    + split; [discriminate|lia].
  - intros ->. reflexivity.
Qed.

Lemma break_iff_low_byte_is_27_witness :
  (HandTracking.Break = HandTracking.Break <-> 1048603 mod 256 = 27)
  /\ (1048603 = -1 -> HandTracking.Break = HandTracking.Next).
Proof.
  apply (break_iff_low_byte_is_27 Stub.live
           (Stub.start {| Stub.sim_opened := true; Stub.sim_reads := [true];
                          Stub.sim_keys := [1048603]; Stub.sim_shown := 0 |})
           {| HandTracking.outside :=
                {| Stub.sim_opened := true; Stub.sim_reads := [];
                   Stub.sim_keys := []; Stub.sim_shown := 1 |};
              HandTracking.history :=
                [HandTracking.c_read true; HandTracking.c_cvtColor;
                 HandTracking.c_process;
                 HandTracking.c_imshow "Hand Tracking";
                 HandTracking.c_waitKey 1 1048603] |}).
  - reflexivity.
  - reflexivity.
Defined.
